(** * Weight tracker: the estimation engine (calculations.js)

    A shallow embedding of the [Calculations] module and the properties of
    its specification.

    The engine is embedded twice.  The first embedding takes a JavaScript
    number for an exact rational; it carries the properties that do not
    depend on how a double rounds: the guards and the shape of the results,
    bounds, order and monotonicity, and the aliasing of the in-place sort.
    The second embedding, the module [Double], takes a number for an IEEE
    754 double, as JavaScript does; it carries the values that the code
    rounds, ceils or compares with a threshold.

    Modelling conventions of the first embedding.
    - A JavaScript number is an exact rational ([Q]); NaN, the infinities
      and the rounding of IEEE doubles are outside this embedding.
      Equality of numbers is [Qeq] ([==]); the results of [Math.round] and
      [Math.ceil] are integers ([Z]), compared with Leibniz equality.
    - A parameter or property that the code tests for presence is a
      [jsval]: [undefined], [null] or a number.
    - An object is a record; a property that only some of the object
      literals of a function carry has an [option] type, [None] meaning
      that the property is absent (reads as [undefined]).
    - An object literal used as a table is the list of its own
      properties; the members it inherits from [Object.prototype] are not
      part of the table, and statements on keys outside a table are made
      for keys that are not inherited ([plain_key]).
    - Arrays are lists; [slice(0, k)] is [firstn k], [filter] is [filter],
      [reduce (f, init)] is [fold_left f _ init].  The elements of an
      array of entries are objects (never [null]).
    - [new Date()] reads the clock: the function that calls it takes the
      current date as an explicit argument.
    - [Array.prototype.sort] mutates its receiver: the function that calls
      it runs in a state monad over a heap of arrays. *)

From Stdlib Require Import ZArith QArith Qround Qabs Qminmax List String Bool Lia Lqa.
From Stdlib Require Import Permutation Sorted.
From Stdlib Require Import Floats.
From Stdlib Require Uint63.

Set Warnings "-inexact-float".
Import ListNotations.

Open Scope Q_scope.

(** ** JavaScript values and built-ins *)

Inductive jsval : Type :=
| undefined : jsval
| null : jsval
| num (q : Q) : jsval.

(** ToBoolean on a number: every number but zero is truthy. *)
Definition truthyQ (q : Q) : bool := negb (Qeq_bool q 0).

(** ToBoolean: [undefined], [null] and [0] are falsy. *)
Definition truthy (v : jsval) : bool :=
  match v with
  | undefined | null => false
  | num q => truthyQ q
  end.

(** [v || d] where [d] is a number. *)
Definition or_num (v : jsval) (d : Q) : Q :=
  match v with
  | num q => if truthyQ q then q else d
  | _ => d
  end.

(** ToNumber of a value that is a number or [null]: [null] converts to 0.
    ([undefined] would convert to NaN; no conversion below meets it.) *)
Definition ToNumber (v : jsval) : Q :=
  match v with
  | num q => q
  | _ => 0
  end.

(** [Math.round]: the nearest integer, halves towards plus infinity. *)
Definition Math_round (x : Q) : Z := Qfloor (x + (1 # 2)).

Definition Math_ceil (x : Q) : Z := Qceiling x.

Definition Math_abs (x : Q) : Q := Qabs x.

Definition Math_min (x y : Q) : Q := Qmin x y.

(** [x < y] on numbers. *)
Definition Qlt_bool (x y : Q) : bool := negb (Qle_bool y x).

(** The number of a length or of a count. *)
Definition ofnat (n : nat) : Q := inject_Z (Z.of_nat n).

(** Lookup of a string key in an object literal used as a table. *)
Fixpoint lookup {A : Type} (k : string) (tbl : list (string * A)) : option A :=
  match tbl with
  | [] => None
  | (k', v) :: tbl' => if String.eqb k k' then Some v else lookup k tbl'
  end.

(** ** Data model: the objects the engine reads *)

Record Profile : Type := {
  height : jsval;
  age : jsval;
  gender : option string
}.

Record Calories : Type := { total : jsval }.

Record Workout : Type := {
  workout_completed : bool;
  exercises : option (list string)
}.

Record Running : Type := {
  running_completed : bool;
  distance : jsval
}.

Record DailyEntry : Type := {
  calories : option Calories;
  workout : option Workout;
  running : option Running
}.

Record WeightEntry : Type := {
  date : Z;            (* new Date(entry.date), milliseconds *)
  actualWeight : Q;
  weekNumber : Z
}.

(** A date in local time: the calendar day and the time within the day.
    [setDate(getDate() + k)] moves the calendar day by [k]. *)
Record Date : Type := {
  day : Z;
  msOfDay : Z
}.

Definition addDays (d : Date) (k : Z) : Date :=
  {| day := (day d + k)%Z; msOfDay := msOfDay d |}.

(** [v === s] for a string literal [s]; [None] is a missing string. *)
Definition strict_eq (v : option string) (s : string) : bool :=
  match v with
  | Some g => String.eqb g s
  | None => false
  end.

(** The property [k] of a table of numbers. *)
Definition prop (k : string) (tbl : list (string * Q)) : jsval :=
  match lookup k tbl with
  | Some q => num q
  | None => undefined
  end.

(** ** Arrays of weight entries in a heap

    [sort] works in place, so the arrays of weight entries live in a heap
    and are passed by reference.  A reference is an index into the heap;
    allocation appends. *)

Definition loc : Type := nat.

Definition heap : Type := list (list WeightEntry).

Definition M (A : Type) : Type := heap -> A * heap.

Definition ret {A : Type} (a : A) : M A := fun h => (a, h).

Definition bind {A B : Type} (c : M A) (k : A -> M B) : M B :=
  fun h => let (a, h') := c h in k a h'.

Notation "x <- c ;; k" := (bind c (fun x => k))
  (at level 61, c at next level, right associativity).

(** The elements of the array at [l]. *)
Definition deref (l : loc) : M (list WeightEntry) :=
  fun h => (nth l h [], h).

(** [[...a]]: a fresh array with the elements of [a]. *)
Definition spread (l : loc) : M loc :=
  fun h => (List.length h, h ++ [nth l h []]).

Fixpoint store (l : loc) (a : list WeightEntry) (h : heap) : heap :=
  match h, l with
  | [], _ => []
  | _ :: h', O => a :: h'
  | b :: h', S l' => b :: store l' a h'
  end.

(** Stable sorting with a comparator that returns a number. *)
Fixpoint insert_by {A : Type} (cmp : A -> A -> Z) (x : A) (l : list A) : list A :=
  match l with
  | [] => [x]
  | y :: l' => if (cmp x y <=? 0)%Z then x :: l else y :: insert_by cmp x l'
  end.

Definition sort_by {A : Type} (cmp : A -> A -> Z) (l : list A) : list A :=
  fold_right (insert_by cmp) [] l.

(** [a.sort(cmp)]: sorts the array at [l] in place and returns [l]. *)
Definition sort (cmp : WeightEntry -> WeightEntry -> Z) (l : loc) : M loc :=
  fun h => (l, store l (sort_by cmp (nth l h [])) h).

(** ** Result objects *)

Module Averages.
Record t : Type := {
  avgCalories : Z;
  avgExerciseCalories : option Z;
  workoutDays : nat;
  runningDays : nat;
  entries : option (list DailyEntry)
}.
End Averages.

Module Prediction.
Record t : Type := {
  predictedWeight : jsval;
  dailyBalance : Z;
  tdee : Z;
  bmr : Z;
  avgExerciseCalories : Z;
  activityLevel : option string;
  confidence : Z;
  daysOfData : option nat
}.
End Prediction.

Module TimeToGoal.
Record t : Type := {
  weeksRemaining : option Z;        (* None is null *)
  estimatedDate : option Date;      (* None is null *)
  achieved : option bool            (* None: the property is absent *)
}.
End TimeToGoal.

Module HealthyRange.
Record t : Type := {
  min : Q;
  max : Q
}.
End HealthyRange.

Module Calculations.

(** MET (Metabolic Equivalent of Task) values for exercises *)
Definition MET_VALUES : list (string * Q) :=
  [ ("bicep/tricep", 3.5);
    ("shoulder", 3.5);
    ("back", 4.0);
    ("chest", 4.0);
    ("booty", 4.5);
    ("leg", 4.5);
    ("abs", 3.0);
    ("running", 9.8) ]%string.

(** Average workout duration in minutes *)
Definition WORKOUT_DURATION : Q := 45.

(** Calories per kg of body weight (7700 cal = 1 kg) *)
Definition CALORIES_PER_KG : Q := 7700.

Definition calculateBMR (weight height age : jsval) (gender : option string)
  : jsval :=
  if negb (truthy weight) || negb (truthy height) || negb (truthy age) then
    null
  else
    let baseCalc :=
      (10 * ToNumber weight) + (6.25 * ToNumber height) - (5 * ToNumber age) in
    if strict_eq gender "female" then num (baseCalc - 161)
    else num (baseCalc + 5).

Definition multipliers : list (string * Q) :=
  [ ("sedentary", 1.2);
    ("light", 1.375);
    ("moderate", 1.55);
    ("active", 1.725);
    ("veryActive", 1.9) ]%string.

Definition calculateTDEE (bmr : jsval) (activityLevel : string) : jsval :=
  if negb (truthy bmr) then null
  else
    let multiplier :=
      or_num (prop activityLevel multipliers)
             (ToNumber (prop "sedentary" multipliers)) in
    num (ToNumber bmr * multiplier).

(** [entry.workout && entry.workout.completed], also
    [entry.workout?.completed], as a condition. *)
Definition workoutCompleted (entry : DailyEntry) : bool :=
  match workout entry with
  | Some w => workout_completed w
  | None => false
  end.

(** [entry.running && entry.running.completed], also
    [entry.running?.completed], as a condition. *)
Definition runningCompleted (entry : DailyEntry) : bool :=
  match running entry with
  | Some r => running_completed r
  | None => false
  end.

(** [entry.running.distance], [undefined] without a running record. *)
Definition runningDistance (entry : DailyEntry) : jsval :=
  match running entry with
  | Some r => distance r
  | None => undefined
  end.

(** [entry.workout.exercises?.length], [None] when there is no array. *)
Definition exercisesLength (entry : DailyEntry) : option nat :=
  match workout entry with
  | Some w => option_map (@List.length string) (exercises w)
  | None => None
  end.

Definition getWeeklyActivityLevel (weeklyEntries : option (list DailyEntry))
  : string :=
  match weeklyEntries with
  | None | Some [] => "sedentary"
  | Some weeklyEntries =>
      (* Count workout days *)
      let workoutDays := List.length (filter workoutCompleted weeklyEntries) in
      (* Calculate total running distance *)
      let totalRunDistance :=
        fold_left (fun sum entry => sum + or_num (runningDistance entry) 0)
                  (filter runningCompleted weeklyEntries) 0 in
      (* Count total exercises *)
      let totalExercises :=
        fold_left (fun sum entry =>
                     (sum + match exercisesLength entry with
                            | Some n => n
                            | None => 0
                            end)%nat)
                  (filter workoutCompleted weeklyEntries) 0%nat in
      (* Scoring system *)
      let score := 0 in
      let score := score + ofnat workoutDays * 10 in
      let score := score + totalRunDistance * 5 in
      let score := score + ofnat totalExercises * 2 in
      (* Map score to activity level *)
      if Qle_bool 100 score then "veryActive"
      else if Qle_bool 70 score then "active"
      else if Qle_bool 40 score then "moderate"
      else if Qle_bool 15 score then "light"
      else "sedentary"
  end%string.

Definition calculateExerciseCalories (weight : jsval) (exerciseData : DailyEntry)
  : Z :=
  if negb (truthy weight) then 0%Z
  else
    let totalCalories := 0 in
    (* Strength training calories *)
    let totalCalories :=
      match workout exerciseData with
      | Some w =>
          if workout_completed w then
            let exercises :=
              match exercises w with Some l => l | None => [] end in
            if (0 <? List.length exercises)%nat then
              let totalMET :=
                fold_left (fun sum exercise =>
                             sum + or_num (prop exercise MET_VALUES) 3.5)
                          exercises 0 in
              let avgMET := totalMET / ofnat (List.length exercises) in
              totalCalories
              + (avgMET * ToNumber weight * WORKOUT_DURATION) / 60
            else totalCalories
          else totalCalories
      | None => totalCalories
      end in
    (* Running calories *)
    let totalCalories :=
      match running exerciseData with
      | Some r =>
          if running_completed r then
            let distance := or_num (distance r) 0 in
            let runTime := distance * 10 in
            totalCalories
            + (ToNumber (prop "running" MET_VALUES) * ToNumber weight * runTime)
              / 60
          else totalCalories
      | None => totalCalories
      end in
    Math_round totalCalories.

(** [entry.calories?.total] *)
Definition caloriesTotal (entry : DailyEntry) : jsval :=
  match calories entry with
  | Some c => total c
  | None => undefined
  end.

Definition calculateAverages (entries : option (list DailyEntry)) (days : nat)
  : Averages.t :=
  match entries with
  | None | Some [] =>
      {| Averages.avgCalories := 0;
         Averages.avgExerciseCalories := Some 0%Z;
         Averages.workoutDays := 0;
         Averages.runningDays := 0;
         Averages.entries := None |}
  | Some entries =>
      let recentEntries := firstn days entries in
      let count := List.length recentEntries in
      let avgCalories :=
        fold_left (fun sum entry => sum + or_num (caloriesTotal entry) 0)
                  recentEntries 0
        / ofnat count in
      let workoutDays := List.length (filter workoutCompleted recentEntries) in
      let runningDays := List.length (filter runningCompleted recentEntries) in
      {| Averages.avgCalories := Math_round avgCalories;
         Averages.avgExerciseCalories := None;
         Averages.workoutDays := workoutDays;
         Averages.runningDays := runningDays;
         Averages.entries := Some recentEntries |}
  end.

(** The local constants of [predictWeight] past its guard, each as a
    function of the arguments it depends on. *)
Module Locals.
Section Body.
Variables (profile : Profile) (dailyEntries : list DailyEntry)
          (currentWeight : jsval).

(* Get last 7 days of data (or available days if less) *)
Definition recentEntries : list DailyEntry :=
  firstn (Nat.min 7 (List.length dailyEntries)) dailyEntries.

Definition averages : Averages.t :=
  calculateAverages (Some recentEntries) 7.

(* Calculate average exercise calories burned *)
Definition avgExerciseCalories : Q :=
  fold_left (fun sum entry =>
               sum + inject_Z (calculateExerciseCalories currentWeight entry))
            recentEntries 0
  / ofnat (List.length recentEntries).

(* Calculate BMR for current weight *)
Definition bmr : jsval :=
  calculateBMR currentWeight (height profile) (age profile) (gender profile).

(* Determine activity level from recent entries *)
Definition activityLevel : string :=
  getWeeklyActivityLevel (Some recentEntries).

(* Calculate TDEE *)
Definition tdee : jsval := calculateTDEE bmr activityLevel.

(* Calculate net calorie balance *)
Definition dailyBalance : Q :=
  inject_Z (Averages.avgCalories averages)
  - (ToNumber tdee + avgExerciseCalories).

(* Weight change calculation *)
Definition dailyWeightChange : Q := dailyBalance / CALORIES_PER_KG.

(* Predict weight for next week (7 days) *)
Definition daysAhead : Q := 7.

Definition predictedWeight : Q :=
  ToNumber currentWeight + (dailyWeightChange * daysAhead).

(* Full confidence with 7 days of data, scales linearly *)
Definition confidence : Q :=
  Math_min (ofnat (List.length recentEntries) / 7) 1.

(* Apply dampening factor *)
Definition dampedPrediction : Q :=
  ToNumber currentWeight
  + ((predictedWeight - ToNumber currentWeight) * confidence * 0.9).
End Body.
End Locals.

Definition predictWeight (profile : option Profile)
           (dailyEntries : option (list DailyEntry)) (currentWeight : jsval)
  : Prediction.t :=
  match profile, truthy currentWeight, dailyEntries with
  | Some profile, true, Some ((_ :: _) as dailyEntries) =>
      {| Prediction.predictedWeight :=
           num (inject_Z
                  (Math_round
                     (Locals.dampedPrediction profile dailyEntries currentWeight
                      * 10))
                / 10);
         Prediction.dailyBalance :=
           Math_round (Locals.dailyBalance profile dailyEntries currentWeight);
         Prediction.tdee :=
           Math_round
             (ToNumber (Locals.tdee profile dailyEntries currentWeight));
         Prediction.bmr :=
           Math_round (ToNumber (Locals.bmr profile currentWeight));
         Prediction.avgExerciseCalories :=
           Math_round (Locals.avgExerciseCalories dailyEntries currentWeight);
         Prediction.activityLevel := Some (Locals.activityLevel dailyEntries);
         Prediction.confidence :=
           Math_round (Locals.confidence dailyEntries * 100);
         Prediction.daysOfData :=
           Some (List.length (Locals.recentEntries dailyEntries)) |}
  | _, _, _ =>
      {| Prediction.predictedWeight := currentWeight;
         Prediction.dailyBalance := 0;
         Prediction.tdee := 0;
         Prediction.bmr := 0;
         Prediction.avgExerciseCalories := 0;
         Prediction.activityLevel := None;
         Prediction.confidence := 0;
         Prediction.daysOfData := None |}
  end.

(** The comparator of the sort by date. *)
Definition byDate (a b : WeightEntry) : Z := (date a - date b)%Z.

Definition calculateWeightLossRate (weightEntries : option loc) : M Q :=
  match weightEntries with
  | None => ret 0
  | Some weightEntries =>
      entries <- deref weightEntries ;;
      if (List.length entries <? 2)%nat then ret 0
      else
        (* Get first and last weights *)
        copy <- spread weightEntries ;;
        sorted <- sort byDate copy ;;
        sorted <- deref sorted ;;
        match nth_error sorted 0,
              nth_error sorted (List.length sorted - 1) with
        | Some first, Some last =>
            let weightChange := actualWeight last - actualWeight first in
            let weeksPassed := (weekNumber last - weekNumber first)%Z in
            if (weeksPassed =? 0)%Z then ret 0
            else
              ret (inject_Z
                     (Math_round ((weightChange / inject_Z weeksPassed) * 10))
                   / 10)
        | _, _ => ret 0 (* not reached: [sorted] has two elements or more *)
        end
  end.

(** [now] is the value of [new Date()] during the call. *)
Definition calculateTimeToGoal (now : Date) (currentWeight goalWeight : jsval)
           (avgWeeklyLoss : Q) : TimeToGoal.t :=
  if negb (truthy currentWeight) || negb (truthy goalWeight)
     || Qle_bool 0 avgWeeklyLoss then
    {| TimeToGoal.weeksRemaining := None;
       TimeToGoal.estimatedDate := None;
       TimeToGoal.achieved := None |}
  else
    let weightToLose := ToNumber currentWeight - ToNumber goalWeight in
    if Qle_bool weightToLose 0 then
      {| TimeToGoal.weeksRemaining := Some 0%Z;
         TimeToGoal.estimatedDate := Some now;
         TimeToGoal.achieved := Some true |}
    else
      let weeksRemaining := Math_ceil (weightToLose / Math_abs avgWeeklyLoss) in
      let estimatedDate := addDays now (weeksRemaining * 7) in
      {| TimeToGoal.weeksRemaining := Some weeksRemaining;
         TimeToGoal.estimatedDate := Some estimatedDate;
         TimeToGoal.achieved := Some false |}.

(** [None] is the [null] result. *)
Definition getHealthyWeightRange (height : jsval) : option HealthyRange.t :=
  if negb (truthy height) then None
  else
    let heightM := ToNumber height / 100 in
    let minWeight := 18.5 * heightM * heightM in
    let maxWeight := 24.9 * heightM * heightM in
    Some {| HealthyRange.min := inject_Z (Math_round (minWeight * 10)) / 10;
            HealthyRange.max := inject_Z (Math_round (maxWeight * 10)) / 10 |}.

Definition calculateBMI (weight height : jsval) : jsval :=
  if negb (truthy weight) || negb (truthy height) then null
  else
    let heightM := ToNumber height / 100 in
    let bmi := ToNumber weight / (heightM * heightM) in
    num (inject_Z (Math_round (bmi * 10)) / 10).

Definition getBMICategory (bmi : jsval) : string :=
  if negb (truthy bmi) then "Unknown"
  else if Qlt_bool (ToNumber bmi) 18.5 then "Underweight"
  else if Qlt_bool (ToNumber bmi) 25 then "Normal"
  else if Qlt_bool (ToNumber bmi) 30 then "Overweight"
  else "Obese".

End Calculations.

Import Calculations.

(** * Vocabulary of the specification *)

(** A value the code treats as missing: [undefined], [null] or zero. *)
Definition missing (v : jsval) : Prop :=
  v = undefined \/ v = null \/ exists q, v = num q /\ q == 0.

(** The Mifflin-St Jeor value of the specification. *)
Definition mifflin (w h a : Q) (gender : option string) : Q :=
  10 * w + 6.25 * h - 5 * a
  + (if strict_eq gender "female" then - (161) else 5).

(** The calls that [predictWeight] answers with the zeroed prediction. *)
Definition degenerate (profile : option Profile)
           (dailyEntries : option (list DailyEntry)) (currentWeight : jsval)
  : Prop :=
  profile = None \/ missing currentWeight
  \/ dailyEntries = None \/ dailyEntries = Some [].

(** The eight properties of a prediction: six are carried by every object
    literal of [predictWeight]; [activityLevel] and [daysOfData] may be
    absent. *)
Definition has_all_fields (r : Prediction.t) : Prop :=
  Prediction.activityLevel r <> None /\ Prediction.daysOfData r <> None.

Definition sumQ (l : list Q) : Q := fold_right Qplus 0 l.

(** The mean of a list of numbers. *)
Definition mean (l : list Q) : Q := sumQ l / ofnat (List.length l).

(** Rounding to one decimal place. *)
Definition round1 (x : Q) : Q := inject_Z (Math_round (x * 10)) / 10.

(** The window of the forecast: the first min(7, length) entries. *)
Definition window (dailyEntries : list DailyEntry) : list DailyEntry :=
  firstn (Nat.min 7 (List.length dailyEntries)) dailyEntries.

(** The multiplier of an activity level, sedentary for an unknown level. *)
Definition multiplier_of (level : string) : Q :=
  or_num (prop level multipliers) 1.2.

(** The exercise tags of a day, none without a workout record or array. *)
Definition tags (e : DailyEntry) : list string :=
  match workout e with
  | Some w => match exercises w with Some l => l | None => [] end
  | None => []
  end.

(** The number of tags of a day, repeated tags counted each time. *)
Definition tagCount (e : DailyEntry) : nat := List.length (tags e).

(** The number of distinct tags of a day. *)
Definition distinctTagCount (e : DailyEntry) : nat :=
  List.length (nodup string_dec (tags e)).

(** The score of a week for a given way of counting the tags of a day. *)
Definition score_with (count : DailyEntry -> nat) (es : list DailyEntry) : Q :=
  10 * ofnat (List.length (filter workoutCompleted es))
  + 5 * sumQ (map (fun e => or_num (runningDistance e) 0)
                  (filter runningCompleted es))
  + 2 * ofnat (list_sum (map count (filter workoutCompleted es))).

(** The thresholds of the activity levels. *)
Inductive level_for (s : Q) : string -> Prop :=
| level_veryActive : 100 <= s -> level_for s "veryActive"
| level_active : 70 <= s -> s < 100 -> level_for s "active"
| level_moderate : 40 <= s -> s < 70 -> level_for s "moderate"
| level_light : 15 <= s -> s < 40 -> level_for s "light"
| level_sedentary : s < 15 -> level_for s "sedentary".

(** The MET of a tag, 3.5 for a tag that is not in the table. *)
Definition met (tag : string) : Q := or_num (prop tag MET_VALUES) 3.5.

(** The strength-training component at weight [w]. *)
Definition strengthCalories (w : Q) (e : DailyEntry) : Q :=
  if workoutCompleted e then
    match tags e with
    | [] => 0
    | ts => mean (map met ts) * w * 45 / 60
    end
  else 0.

(** The running component at weight [w]. *)
Definition runningCalories (w : Q) (e : DailyEntry) : Q :=
  if runningCompleted e then
    9.8 * w * (or_num (runningDistance e) 0 * 10) / 60
  else 0.


(** The loss rate as a function of the elements of the array. *)
Definition lossRate (entries : list WeightEntry) : Q :=
  if (List.length entries <? 2)%nat then 0
  else
    let sorted := sort_by byDate entries in
    match nth_error sorted 0, nth_error sorted (List.length sorted - 1) with
    | Some first, Some last =>
        if (weekNumber last - weekNumber first =? 0)%Z then 0
        else
          inject_Z
            (Math_round
               (((actualWeight last - actualWeight first)
                 / inject_Z (weekNumber last - weekNumber first)) * 10))
          / 10
    | _, _ => 0
    end.

(** The five activity levels, lowest first. *)
Definition levels : list string :=
  ["sedentary"; "light"; "moderate"; "active"; "veryActive"]%string.




(** A list of weight entries in ascending order of date. *)
Definition ascending (l : list WeightEntry) : Prop :=
  StronglySorted (fun a b => (date a <= date b)%Z) l.

(** The property names that every object literal inherits from
    [Object.prototype]: for such a key a table lookup finds an inherited
    member instead of [undefined].  [lookup] and [prop] describe own
    properties, so statements about keys outside a table exclude these. *)
Definition inherited_keys : list string :=
  ["constructor"; "hasOwnProperty"; "isPrototypeOf"; "propertyIsEnumerable";
   "toLocaleString"; "toString"; "valueOf"; "__proto__";
   "__defineGetter__"; "__defineSetter__"; "__lookupGetter__";
   "__lookupSetter__"]%string.

Definition plain_key (k : string) : Prop := ~ In k inherited_keys.


(** * The engine in double precision

    The same functions over IEEE 754 binary64 numbers, the numbers of
    JavaScript: every arithmetic operation rounds to the nearest double,
    NaN and the infinities are values, [undefined] converts to NaN, and a
    table lookup also meets the members that an object literal inherits.
    The results that the code rounds, ceils or compares with a threshold
    are stated on this model. *)

Module Double.

Local Open Scope float_scope.

Inductive jsval : Type :=
| undefined : jsval
| null : jsval
| num (f : float) : jsval.

(** ToBoolean on a number: [0], [-0] and [NaN] are falsy. *)
Definition truthyF (f : float) : bool := negb (f =? 0) && negb (is_nan f).

Definition truthy (v : jsval) : bool :=
  match v with
  | undefined | null => false
  | num f => truthyF f
  end.

(** ToNumber: [undefined] converts to NaN, [null] to 0. *)
Definition ToNumber (v : jsval) : float :=
  match v with
  | undefined => nan
  | null => 0
  | num f => f
  end.

(** [v || d] used as a number. *)
Definition or_num (v : jsval) (d : float) : float :=
  if truthy v then ToNumber v else d.

(** The double of an integer below 2^53 in absolute value. *)
Definition of_Z (z : Z) : float :=
  match z with
  | Z0 => 0
  | Zpos _ => of_uint63 (Uint63.of_Z z)
  | Zneg p => - of_uint63 (Uint63.of_Z (Zpos p))
  end.

(** The number of a length or of a count. *)
Definition ofnat (n : nat) : float := of_Z (Z.of_nat n).

Definition signed (s : bool) (m : positive) : Z :=
  if s then Zneg m else Zpos m.

(** The integer [z] as a double; a zero keeps the sign [s] of the number
    it was rounded from. *)
Definition integral (s : bool) (z : Z) : float :=
  if (z =? 0)%Z then (if s then neg_zero else zero) else of_Z z.

(** [Math.round]: the nearest integer, halves towards plus infinity; exact
    on the value [m * 2^e] of the double. *)
Definition Math_round (x : float) : float :=
  match Prim2SF x with
  | S754_finite s m e =>
      if (0 <=? e)%Z then x
      else integral s ((2 * signed s m + 2 ^ (- e)) / 2 ^ (1 - e))%Z
  | _ => x
  end.

(** [Math.ceil] *)
Definition Math_ceil (x : float) : float :=
  match Prim2SF x with
  | S754_finite s m e =>
      if (0 <=? e)%Z then x
      else integral s (- ((- signed s m) / 2 ^ (- e)))%Z
  | _ => x
  end.

Definition Math_abs (x : float) : float := abs x.

(** [Math.min] of two numbers: NaN if one is NaN, and [-0] below [+0]. *)
Definition Math_min (x y : float) : float :=
  if is_nan x || is_nan y then nan
  else if x <? y then x
  else if y <? x then y
  else if 1 / x <? 0 then x
  else y.

(** What [tbl[k]] finds: an own property, a member inherited from
    [Object.prototype] (a function or an object), or nothing. *)
Inductive member : Type :=
| own (f : float) : member
| inherited : member
| absent : member.

Definition prop (k : string) (tbl : list (string * float)) : member :=
  match lookup k tbl with
  | Some f => own f
  | None => if in_dec string_dec k inherited_keys then inherited else absent
  end.

(** [tbl[k] || d] used as a number.  An inherited member is truthy and is
    kept; it is not a number: added to a sum it makes the sum a string,
    multiplied it gives NaN, and the string never reads as a number, so
    the arithmetic that follows yields NaN. *)
Definition or_member (m : member) (d : float) : float :=
  match m with
  | own f => if truthyF f then f else d
  | inherited => nan
  | absent => d
  end.

(** [tbl.k] for a key of the table. *)
Definition get (k : string) (tbl : list (string * float)) : float :=
  match lookup k tbl with
  | Some f => f
  | None => nan
  end.

(** ** Data model *)

Record Profile : Type := {
  height : jsval;
  age : jsval;
  gender : option string
}.

Record Calories : Type := { total : jsval }.

Record Running : Type := {
  running_completed : bool;
  distance : jsval
}.

Record DailyEntry : Type := {
  calories : option Calories;
  workout : option Workout;
  running : option Running
}.

(** A [Date] object: the current date, or the current date after
    [setDate(getDate() + k)]. *)
Inductive JsDate : Type :=
| Now (now : Date) : JsDate
| NowPlusDays (now : Date) (k : float) : JsDate.

Record Averages : Type := {
  avgCalories : float;
  averages_avgExerciseCalories : option float;
  workoutDays : nat;
  runningDays : nat;
  entries : option (list DailyEntry)
}.

Record Prediction : Type := {
  predictedWeight : jsval;
  dailyBalance : float;
  tdee : float;
  bmr : float;
  avgExerciseCalories : float;
  activityLevel : option string;
  confidence : float;
  daysOfData : option nat
}.

Record TimeToGoal : Type := {
  weeksRemaining : option float;      (* None is null *)
  estimatedDate : option JsDate;      (* None is null *)
  achieved : option bool              (* None: the property is absent *)
}.

(** ** The functions *)

Definition MET_VALUES : list (string * float) :=
  [ ("bicep/tricep", 3.5);
    ("shoulder", 3.5);
    ("back", 4.0);
    ("chest", 4.0);
    ("booty", 4.5);
    ("leg", 4.5);
    ("abs", 3.0);
    ("running", 9.8) ]%string.

Definition WORKOUT_DURATION : float := 45.

Definition CALORIES_PER_KG : float := 7700.

Definition calculateBMR (weight height age : jsval) (gender : option string)
  : jsval :=
  if negb (truthy weight) || negb (truthy height) || negb (truthy age) then
    null
  else
    let baseCalc :=
      (10 * ToNumber weight) + (6.25 * ToNumber height) - (5 * ToNumber age) in
    if strict_eq gender "female" then num (baseCalc - 161)
    else num (baseCalc + 5).

Definition multipliers : list (string * float) :=
  [ ("sedentary", 1.2);
    ("light", 1.375);
    ("moderate", 1.55);
    ("active", 1.725);
    ("veryActive", 1.9) ]%string.

Definition calculateTDEE (bmr : jsval) (activityLevel : string) : jsval :=
  if negb (truthy bmr) then null
  else
    let multiplier :=
      or_member (prop activityLevel multipliers) (get "sedentary" multipliers) in
    num (ToNumber bmr * multiplier).

Definition workoutCompleted (entry : DailyEntry) : bool :=
  match workout entry with
  | Some w => workout_completed w
  | None => false
  end.

Definition runningCompleted (entry : DailyEntry) : bool :=
  match running entry with
  | Some r => running_completed r
  | None => false
  end.

Definition runningDistance (entry : DailyEntry) : jsval :=
  match running entry with
  | Some r => distance r
  | None => undefined
  end.

Definition exercisesLength (entry : DailyEntry) : option nat :=
  match workout entry with
  | Some w => option_map (@List.length string) (exercises w)
  | None => None
  end.

Definition getWeeklyActivityLevel (weeklyEntries : option (list DailyEntry))
  : string :=
  match weeklyEntries with
  | None | Some [] => "sedentary"%string
  | Some weeklyEntries =>
      let workoutDays := List.length (filter workoutCompleted weeklyEntries) in
      let totalRunDistance :=
        fold_left (fun sum entry => sum + or_num (runningDistance entry) 0)
                  (filter runningCompleted weeklyEntries) 0 in
      let totalExercises :=
        fold_left (fun sum entry =>
                     (sum + match exercisesLength entry with
                            | Some n => n
                            | None => 0
                            end)%nat)
                  (filter workoutCompleted weeklyEntries) 0%nat in
      let score := 0 in
      let score := score + ofnat workoutDays * 10 in
      let score := score + totalRunDistance * 5 in
      let score := score + ofnat totalExercises * 2 in
      if 100 <=? score then "veryActive"%string
      else if 70 <=? score then "active"%string
      else if 40 <=? score then "moderate"%string
      else if 15 <=? score then "light"%string
      else "sedentary"%string
  end.

Definition calculateExerciseCalories (weight : jsval) (exerciseData : DailyEntry)
  : float :=
  if negb (truthy weight) then 0
  else
    let totalCalories := 0 in
    let totalCalories :=
      match workout exerciseData with
      | Some w =>
          if workout_completed w then
            let exercises :=
              match exercises w with Some l => l | None => [] end in
            if (0 <? List.length exercises)%nat then
              let totalMET :=
                fold_left (fun sum exercise =>
                             sum + or_member (prop exercise MET_VALUES) 3.5)
                          exercises 0 in
              let avgMET := totalMET / ofnat (List.length exercises) in
              totalCalories
              + (avgMET * ToNumber weight * WORKOUT_DURATION) / 60
            else totalCalories
          else totalCalories
      | None => totalCalories
      end in
    let totalCalories :=
      match running exerciseData with
      | Some r =>
          if running_completed r then
            let distance := or_num (distance r) 0 in
            let runTime := distance * 10 in
            totalCalories
            + (get "running" MET_VALUES * ToNumber weight * runTime) / 60
          else totalCalories
      | None => totalCalories
      end in
    Math_round totalCalories.

Definition caloriesTotal (entry : DailyEntry) : jsval :=
  match calories entry with
  | Some c => total c
  | None => undefined
  end.

Definition calculateAverages (entries : option (list DailyEntry)) (days : nat)
  : Averages :=
  match entries with
  | None | Some [] =>
      {| avgCalories := 0;
         averages_avgExerciseCalories := Some 0;
         workoutDays := 0;
         runningDays := 0;
         entries := None |}
  | Some entries =>
      let recentEntries := firstn days entries in
      let count := List.length recentEntries in
      let avgCalories :=
        fold_left (fun sum entry => sum + or_num (caloriesTotal entry) 0)
                  recentEntries 0
        / ofnat count in
      let workoutDays := List.length (filter workoutCompleted recentEntries) in
      let runningDays := List.length (filter runningCompleted recentEntries) in
      {| avgCalories := Math_round avgCalories;
         averages_avgExerciseCalories := None;
         workoutDays := workoutDays;
         runningDays := runningDays;
         entries := Some recentEntries |}
  end.

(** The local constants of [predictWeight] past its guard. *)
Module Locals.
Section Body.
Variables (profile : Profile) (dailyEntries : list DailyEntry)
          (currentWeight : jsval).

Definition recentEntries : list DailyEntry :=
  firstn (Nat.min 7 (List.length dailyEntries)) dailyEntries.

Definition averages : Averages :=
  calculateAverages (Some recentEntries) 7.

Definition avgExerciseCalories : float :=
  fold_left (fun sum entry =>
               sum + calculateExerciseCalories currentWeight entry)
            recentEntries 0
  / ofnat (List.length recentEntries).

Definition bmr : jsval :=
  calculateBMR currentWeight (height profile) (age profile) (gender profile).

Definition activityLevel : string :=
  getWeeklyActivityLevel (Some recentEntries).

Definition tdee : jsval := calculateTDEE bmr activityLevel.

Definition dailyBalance : float :=
  avgCalories averages - (ToNumber tdee + avgExerciseCalories).

Definition dailyWeightChange : float := dailyBalance / CALORIES_PER_KG.

Definition daysAhead : float := 7.

Definition predictedWeight : float :=
  ToNumber currentWeight + (dailyWeightChange * daysAhead).

Definition confidence : float :=
  Math_min (ofnat (List.length recentEntries) / 7) 1.

Definition dampedPrediction : float :=
  ToNumber currentWeight
  + ((predictedWeight - ToNumber currentWeight) * confidence * 0.9).
End Body.
End Locals.

Definition predictWeight (profile : option Profile)
           (dailyEntries : option (list DailyEntry)) (currentWeight : jsval)
  : Prediction :=
  match profile, truthy currentWeight, dailyEntries with
  | Some profile, true, Some ((_ :: _) as dailyEntries) =>
      {| predictedWeight :=
           num (Math_round
                  (Locals.dampedPrediction profile dailyEntries currentWeight
                   * 10)
                / 10);
         dailyBalance :=
           Math_round (Locals.dailyBalance profile dailyEntries currentWeight);
         tdee :=
           Math_round
             (ToNumber (Locals.tdee profile dailyEntries currentWeight));
         bmr := Math_round (ToNumber (Locals.bmr profile currentWeight));
         avgExerciseCalories :=
           Math_round (Locals.avgExerciseCalories dailyEntries currentWeight);
         activityLevel := Some (Locals.activityLevel dailyEntries);
         confidence := Math_round (Locals.confidence dailyEntries * 100);
         daysOfData := Some (List.length (Locals.recentEntries dailyEntries)) |}
  | _, _, _ =>
      {| predictedWeight := currentWeight;
         dailyBalance := 0;
         tdee := 0;
         bmr := 0;
         avgExerciseCalories := 0;
         activityLevel := None;
         confidence := 0;
         daysOfData := None |}
  end.

(** [now] is the value of [new Date()] during the call. *)
Definition calculateTimeToGoal (now : Date)
           (currentWeight goalWeight avgWeeklyLoss : jsval) : TimeToGoal :=
  if negb (truthy currentWeight) || negb (truthy goalWeight)
     || (0 <=? ToNumber avgWeeklyLoss) then
    {| weeksRemaining := None;
       estimatedDate := None;
       achieved := None |}
  else
    let weightToLose := ToNumber currentWeight - ToNumber goalWeight in
    if weightToLose <=? 0 then
      {| weeksRemaining := Some 0;
         estimatedDate := Some (Now now);
         achieved := Some true |}
    else
      let weeksRemaining :=
        Math_ceil (weightToLose / Math_abs (ToNumber avgWeeklyLoss)) in
      let estimatedDate := NowPlusDays now (weeksRemaining * 7) in
      {| weeksRemaining := Some weeksRemaining;
         estimatedDate := Some estimatedDate;
         achieved := Some false |}.

(** ** Vocabulary of the specification, in doubles *)

(** The sum of a list of numbers, from the left, starting at 0. *)
Definition sum (l : list float) : float := fold_left PrimFloat.add l 0.

(** The mean of a list of numbers. *)
Definition mean (l : list float) : float := sum l / ofnat (List.length l).

(** Rounding to one decimal place. *)
Definition round1 (x : float) : float := Math_round (x * 10) / 10.

(** The window of the forecast: the first min(7, length) entries. *)
Definition window (dailyEntries : list DailyEntry) : list DailyEntry :=
  firstn (Nat.min 7 (List.length dailyEntries)) dailyEntries.

(** The exercise tags of a day, none without a workout record or array. *)
Definition tags (e : DailyEntry) : list string :=
  match workout e with
  | Some w => match exercises w with Some l => l | None => [] end
  | None => []
  end.

(** The number of distinct tags of a day. *)
Definition distinctTagCount (e : DailyEntry) : nat :=
  List.length (nodup string_dec (tags e)).

(** The score of a week: 10 per workout day, 5 per kilometre run on the
    running days, 2 per distinct exercise tag of the workout days, added
    in this order. *)
Definition score (es : list DailyEntry) : float :=
  0
  + ofnat (List.length (filter workoutCompleted es)) * 10
  + sum (map (fun e => or_num (runningDistance e) 0)
             (filter runningCompleted es)) * 5
  + ofnat (list_sum (map distinctTagCount (filter workoutCompleted es))) * 2.

(** The thresholds of the activity levels, the highest first. *)
Inductive level_for (s : float) : string -> Prop :=
| level_veryActive : (100 <=? s) = true -> level_for s "veryActive"
| level_active :
    (100 <=? s) = false -> (70 <=? s) = true -> level_for s "active"
| level_moderate :
    (70 <=? s) = false -> (40 <=? s) = true -> level_for s "moderate"
| level_light :
    (40 <=? s) = false -> (15 <=? s) = true -> level_for s "light"
| level_sedentary : (15 <=? s) = false -> level_for s "sedentary".

(** The MET of a tag: its table value, 3.5 for a tag outside the table. *)
Definition met (tag : string) : float := or_member (prop tag MET_VALUES) 3.5.

(** The strength-training component at weight [w]. *)
Definition strengthCalories (w : float) (e : DailyEntry) : float :=
  (mean (map met (tags e)) * w * 45) / 60.

(** The running component at weight [w]. *)
Definition runningCalories (w : float) (e : DailyEntry) : float :=
  (9.8 * w * (or_num (runningDistance e) 0 * 10)) / 60.

(** The sum of the components that apply to the day. *)
Definition exerciseTotal (w : float) (e : DailyEntry) : float :=
  let t := 0 in
  let t :=
    if workoutCompleted e && negb (Nat.eqb (List.length (tags e)) 0)
    then t + strengthCalories w e else t in
  let t := if runningCompleted e then t + runningCalories w e else t in
  t.

(** The sign bit is clear, or the number is NaN: the number is not below 0
    and is not [-0]. *)
Definition plus (x : float) : bool :=
  match Prim2SF x with
  | S754_zero s | S754_infinity s | S754_finite s _ _ => negb s
  | S754_nan => true
  end.

(** The running distance of the day, if a number, is not below 0. *)
Definition distance_not_negative (e : DailyEntry) : Prop :=
  (ToNumber (runningDistance e) <? 0) = false.

(** The zero with the sign bit set, [-0]. *)
Definition is_neg_zero (x : float) : bool :=
  match Prim2SF x with
  | S754_zero s => s
  | _ => false
  end.

(** The predicted weight as the simplified expression
    currentWeight + ((avgCalories - (tdee + avgExerciseCalories)) / 7700 * 7)
    * min(|W|/7, 1) * 0.9, rounded to one decimal place, each operation in
    doubles. *)
Definition simplifiedPrediction (profile : Profile)
           (dailyEntries : list DailyEntry) (cw : float) : float :=
  let W := window dailyEntries in
  let avgCalories :=
    Math_round (mean (map (fun e => or_num (caloriesTotal e) 0) W)) in
  let avgExerciseCalories :=
    mean (map (fun e => calculateExerciseCalories (num cw) e) W) in
  let tdeeVal :=
    ToNumber (calculateTDEE
                (calculateBMR (num cw) (height profile) (age profile)
                              (gender profile))
                (getWeeklyActivityLevel (Some W))) in
  round1 (cw + ((avgCalories - (tdeeVal + avgExerciseCalories)) / 7700 * 7)
               * Math_min (ofnat (List.length W) / 7) 1 * 0.9).

End Double.

(** * Properties *)

(** ** Auxiliary facts on the built-ins *)

Lemma truthyQ_true (q : Q) : truthyQ q = true <-> ~ q == 0.
Proof.
  unfold truthyQ. rewrite negb_true_iff.
  split.
  - intros H E. apply Qeq_bool_iff in E. congruence.
  - intros H. destruct (Qeq_bool q 0) eqn:E; [|reflexivity].
    apply Qeq_bool_iff in E. contradiction.
Qed.

Lemma truthyQ_false (q : Q) : truthyQ q = false <-> q == 0.
Proof.
  unfold truthyQ. rewrite negb_false_iff. apply Qeq_bool_iff.
Qed.

Lemma truthy_false (v : jsval) : truthy v = false <-> missing v.
Proof.
  unfold missing. destruct v as [| |q]; simpl.
  - tauto.
  - tauto.
  - rewrite truthyQ_false. split.
    + intros H. right; right. exists q. split; [reflexivity|exact H].
    + intros [H|[H|[q' [H E]]]]; try discriminate.
      injection H as ->. exact E.
Qed.

Lemma truthy_true (v : jsval) :
  truthy v = true <-> exists q, v = num q /\ ~ q == 0.
Proof.
  destruct v as [| |q]; simpl.
  - split; [discriminate|]. intros [q [H _]]. discriminate.
  - split; [discriminate|]. intros [q [H _]]. discriminate.
  - rewrite truthyQ_true. split.
    + intros H. exists q. split; [reflexivity|exact H].
    + intros [q' [H E]]. injection H as ->. exact E.
Qed.

Lemma Math_round_comp (x y : Q) : x == y -> Math_round x = Math_round y.
Proof.
  intros E. unfold Math_round. apply Qfloor_comp. rewrite E. reflexivity.
Qed.

(** ** BMR *)

(** C4, the example of the claim: for weight 70, height 165, age 30 and
    sex female the code does not return 667.5. *)
Lemma calculateBMR_example_not_667_5 :
  ~ (exists q, calculateBMR (num 70) (num 165) (num 30) (Some "female"%string)
               = num q /\ q == 667.5).
Proof.
  intros [q [H E]]. vm_compute in H. injection H as <-.
  vm_compute in E. discriminate.
Qed.

(** C4, amended: [calculateBMR] returns [null] exactly when weight, height
    or age is 0, [null] or [undefined]; otherwise it returns
    10 weight + 6.25 height - 5 age, minus 161 for the sex female and plus 5
    for any other sex value.  Weight 70, height 165, age 30, female gives
    1420.25. *)
Theorem calculateBMR_spec :
  (forall weight height age gender,
      calculateBMR weight height age gender = null
      <-> missing weight \/ missing height \/ missing age)
  /\ (forall w h a gender,
         ~ w == 0 -> ~ h == 0 -> ~ a == 0 ->
         exists q, calculateBMR (num w) (num h) (num a) gender = num q
                   /\ q == mifflin w h a gender)
  /\ (forall w h a g,
         g <> "female"%string ->
         mifflin w h a (Some "female"%string) == 10 * w + 6.25 * h - 5 * a - 161
         /\ mifflin w h a (Some g) == 10 * w + 6.25 * h - 5 * a + 5
         /\ mifflin w h a None == 10 * w + 6.25 * h - 5 * a + 5)
  /\ (exists q, calculateBMR (num 70) (num 165) (num 30) (Some "female"%string)
                = num q /\ q == 1420.25).
Proof.
  split; [|split; [|split]].
  - intros weight height age gender. unfold calculateBMR.
    rewrite <- !truthy_false.
    destruct (truthy weight), (truthy height), (truthy age); simpl;
      try (split; [intros _; tauto | reflexivity]).
    split.
    + destruct (strict_eq gender "female"); discriminate.
    + intros [H|[H|H]]; discriminate.
  - intros w h a gender Hw Hh Ha. unfold calculateBMR, mifflin. simpl.
    apply truthyQ_true in Hw, Hh, Ha. rewrite Hw, Hh, Ha. simpl.
    destruct (strict_eq gender "female"); eexists; (split; [reflexivity|]); ring.
  - intros w h a g Hg. unfold mifflin. simpl.
    apply String.eqb_neq in Hg. rewrite Hg.
    repeat split; ring.
  - eexists. split; [vm_compute; reflexivity | reflexivity].
Qed.

Lemma calculateBMR_spec_witness :
  (exists q, calculateBMR (num 80) (num 180) (num 40) (Some "male"%string) = num q
             /\ q == mifflin 80 180 40 (Some "male"%string))
  /\ mifflin 80 180 40 (Some "male"%string) == 10 * 80 + 6.25 * 180 - 5 * 40 + 5.
Proof.
  split.
  - apply (proj1 (proj2 calculateBMR_spec) 80 180 40 (Some "male"%string));
      intros H; vm_compute in H; discriminate.
  - apply (proj1 (proj2 (proj2 calculateBMR_spec)) 80 180 40 "male"%string).
    intros H; discriminate.
Defined.

(** ** The weight forecast: the guard *)

Lemma predictWeight_degenerate profile dailyEntries currentWeight :
  degenerate profile dailyEntries currentWeight ->
  predictWeight profile dailyEntries currentWeight
  = {| Prediction.predictedWeight := currentWeight;
       Prediction.dailyBalance := 0;
       Prediction.tdee := 0;
       Prediction.bmr := 0;
       Prediction.avgExerciseCalories := 0;
       Prediction.activityLevel := None;
       Prediction.confidence := 0;
       Prediction.daysOfData := None |}.
Proof.
  unfold degenerate, predictWeight. rewrite <- truthy_false.
  intros [-> | [-> | [-> | ->]]]; try reflexivity.
  - destruct profile; reflexivity.
  - destruct profile, (truthy currentWeight); reflexivity.
  - destruct profile, (truthy currentWeight); reflexivity.
Qed.

Lemma predictWeight_regular profile e dailyEntries currentWeight :
  truthy currentWeight = true ->
  let es := e :: dailyEntries in
  predictWeight (Some profile) (Some es) currentWeight
  = {| Prediction.predictedWeight :=
         num (inject_Z
                (Math_round (Locals.dampedPrediction profile es currentWeight * 10))
              / 10);
       Prediction.dailyBalance :=
         Math_round (Locals.dailyBalance profile es currentWeight);
       Prediction.tdee :=
         Math_round (ToNumber (Locals.tdee profile es currentWeight));
       Prediction.bmr := Math_round (ToNumber (Locals.bmr profile currentWeight));
       Prediction.avgExerciseCalories :=
         Math_round (Locals.avgExerciseCalories es currentWeight);
       Prediction.activityLevel := Some (Locals.activityLevel es);
       Prediction.confidence := Math_round (Locals.confidence es * 100);
       Prediction.daysOfData := Some (List.length (Locals.recentEntries es)) |}.
Proof.
  intros H es. unfold predictWeight. rewrite H. reflexivity.
Qed.

(** C2: when the profile is missing, or the current weight is missing or
    falsy, or the list of daily entries is missing or empty, [predictWeight]
    returns the current weight unchanged as predicted weight and 0 for the
    daily balance, TDEE, BMR, average exercise calories and confidence. *)
Theorem predictWeight_degenerate_zeroed :
  forall profile dailyEntries currentWeight,
    degenerate profile dailyEntries currentWeight ->
    let r := predictWeight profile dailyEntries currentWeight in
    Prediction.predictedWeight r = currentWeight
    /\ Prediction.dailyBalance r = 0%Z
    /\ Prediction.tdee r = 0%Z
    /\ Prediction.bmr r = 0%Z
    /\ Prediction.avgExerciseCalories r = 0%Z
    /\ Prediction.confidence r = 0%Z.
Proof.
  intros profile dailyEntries currentWeight H r. subst r.
  rewrite (predictWeight_degenerate _ _ _ H). simpl. tauto.
Qed.

Lemma predictWeight_degenerate_zeroed_witness :
  let r := predictWeight
             (Some {| height := num 165; age := num 30; gender := None |})
             (Some []) (num 70) in
  Prediction.predictedWeight r = num 70
  /\ Prediction.dailyBalance r = 0%Z
  /\ Prediction.tdee r = 0%Z
  /\ Prediction.bmr r = 0%Z
  /\ Prediction.avgExerciseCalories r = 0%Z
  /\ Prediction.confidence r = 0%Z.
Proof.
  apply predictWeight_degenerate_zeroed.
  unfold degenerate. right; right; right. reflexivity.
Defined.

(** C3, refuted as stated: the prediction for an empty list of entries
    lacks [activityLevel] and [daysOfData]. *)
Lemma predictWeight_degenerate_lacks_fields :
  ~ has_all_fields
      (predictWeight
         (Some {| height := num 165; age := num 30; gender := None |})
         (Some []) (num 70)).
Proof.
  intros [H _]. apply H. reflexivity.
Qed.

(** C3, amended: past the guard the record carries all eight fields; in the
    degenerate case it carries the six fields [predictedWeight],
    [dailyBalance], [tdee], [bmr], [confidence] and [avgExerciseCalories],
    while [activityLevel] and [daysOfData] are absent. *)
Theorem predictWeight_fields :
  forall profile dailyEntries currentWeight,
    let r := predictWeight profile dailyEntries currentWeight in
    (degenerate profile dailyEntries currentWeight ->
     Prediction.activityLevel r = None /\ Prediction.daysOfData r = None)
    /\ (~ degenerate profile dailyEntries currentWeight -> has_all_fields r).
Proof.
  intros profile dailyEntries currentWeight r. subst r. split.
  - intros H. rewrite (predictWeight_degenerate _ _ _ H). split; reflexivity.
  - intros H. unfold degenerate in H. rewrite <- truthy_false in H.
    destruct profile as [p|]; [|tauto].
    destruct dailyEntries as [[|e es]|]; [tauto| |tauto].
    destruct (truthy currentWeight) eqn:T; [|tauto].
    rewrite (predictWeight_regular p e es currentWeight T).
    split; discriminate.
Qed.

Lemma predictWeight_fields_witness :
  (Prediction.activityLevel (predictWeight None None null) = None
   /\ Prediction.daysOfData (predictWeight None None null) = None)
  /\ has_all_fields
       (predictWeight
          (Some {| height := num 165; age := num 30; gender := None |})
          (Some [ {| calories := None; workout := None; running := None |} ])
          (num 70)).
Proof.
  split.
  - apply (proj1 (predictWeight_fields None None null)).
    unfold degenerate. left. reflexivity.
  - apply (proj2 (predictWeight_fields
                    (Some {| height := num 165; age := num 30; gender := None |})
                    (Some [ {| calories := None; workout := None; running := None |} ])
                    (num 70))).
    unfold degenerate, missing.
    intros [H|[[H|[H|[q [H E]]]]|[H|H]]]; try discriminate.
    injection H as <-. vm_compute in E. discriminate.
Defined.

(** ** The weight forecast: the window and the averages *)

Lemma fold_left_sumQ {A : Type} (f : A -> Q) (l : list A) (a : Q) :
  fold_left (fun sum x => sum + f x) l a == a + sumQ (map f l).
Proof.
  revert a. induction l as [|x l IH]; intros a; simpl.
  - ring.
  - rewrite IH. ring.
Qed.

Lemma window_length dailyEntries :
  List.length (window dailyEntries) = Nat.min 7 (List.length dailyEntries).
Proof.
  unfold window. rewrite length_firstn. lia.
Qed.






(** ** The weight forecast: confidence *)

Lemma ofnat_lt (n m : nat) : (n < m)%nat -> ofnat n < ofnat m.
Proof.
  intros H. unfold ofnat. rewrite <- Zlt_Qlt. lia.
Qed.

Lemma ofnat_le (n m : nat) : (n <= m)%nat -> ofnat n <= ofnat m.
Proof.
  intros H. unfold ofnat. rewrite <- Zle_Qle. lia.
Qed.

Lemma confidence_below (es : list DailyEntry) :
  (List.length es < 7)%nat ->
  Locals.confidence es == ofnat (List.length es) / 7.
Proof.
  intros H. unfold Locals.confidence, Locals.recentEntries.
  fold (window es). rewrite window_length, Nat.min_r by lia.
  unfold Math_min. apply Q.min_l.
  apply ofnat_lt in H. change (ofnat 7) with 7 in H.
  unfold Qdiv. change (/ 7) with (1 # 7). lra.
Qed.

Lemma confidence_full (es : list DailyEntry) :
  (7 <= List.length es)%nat -> Locals.confidence es == 1.
Proof.
  intros H. unfold Locals.confidence, Locals.recentEntries.
  fold (window es). rewrite window_length, Nat.min_l by lia.
  reflexivity.
Qed.

(** C7: past the guard the internal confidence is min(n/7, 1) for the
    number n of days of data used; it lies in [0, 1], grows strictly with
    n from 1 to 7, is 1 exactly when n >= 7, n never exceeds 7, and the
    reported confidence is this value times 100 rounded to the nearest
    integer. *)
Theorem predictWeight_confidence :
  forall (profile : Profile) (dailyEntries : list DailyEntry) (cw : jsval),
    dailyEntries <> [] ->
    truthy cw = true ->
    let n := List.length (Locals.recentEntries dailyEntries) in
    let c := Locals.confidence dailyEntries in
    let r := predictWeight (Some profile) (Some dailyEntries) cw in
    n = Nat.min 7 (List.length dailyEntries)
    /\ (1 <= n <= 7)%nat
    /\ Prediction.daysOfData r = Some n
    /\ c == Qmin (ofnat n / 7) 1
    /\ 0 <= c <= 1
    /\ (c == 1 <-> (7 <= n)%nat)
    /\ (forall es' : list DailyEntry,
           (List.length dailyEntries < List.length es' <= 7)%nat ->
           c < Locals.confidence es')
    /\ Prediction.confidence r = Math_round (c * 100).
Proof.
  intros profile dailyEntries cw Hes T n c r.
  destruct dailyEntries as [|e es]; [congruence|]. clear Hes.
  subst r. rewrite (predictWeight_regular profile e es cw T). cbv zeta.
  assert (Hn : n = Nat.min 7 (List.length (e :: es))).
  { subst n. unfold Locals.recentEntries. fold (window (e :: es)).
    apply window_length. }
  assert (H1 : (1 <= List.length (e :: es))%nat) by (simpl; lia).
  split; [exact Hn|]. split; [lia|]. split; [reflexivity|].
  split; [reflexivity|].
  destruct (Nat.lt_ge_cases (List.length (e :: es)) 7) as [Hlt|Hge].
  - pose proof (confidence_below _ Hlt) as Ec. fold c in Ec.
    pose proof (ofnat_lt _ _ Hlt) as U. change (ofnat 7) with 7 in U.
    pose proof (ofnat_le _ _ H1) as L. change (ofnat 1) with 1 in L.
    unfold Qdiv in Ec. change (/ 7) with (1 # 7) in Ec.
    split; [lra|]. split.
    + split; [intros E; lra | intros G; lia].
    + split; [|reflexivity].
      intros es' [G1 G2].
      pose proof (ofnat_lt _ _ G1) as V.
      destruct (Nat.lt_ge_cases (List.length es') 7) as [Hlt'|Hge'].
      * rewrite (confidence_below _ Hlt'). unfold Qdiv.
        change (/ 7) with (1 # 7). lra.
      * rewrite (confidence_full _ Hge'). lra.
  - pose proof (confidence_full _ Hge) as Ec. fold c in Ec.
    split; [lra|]. split.
    + split; [intros _; lia | intros _; exact Ec].
    + split; [|reflexivity].
      intros es' [G1 G2]. lia.
Qed.

Lemma predictWeight_confidence_witness :
  let es := [ {| calories := None; workout := None; running := None |};
              {| calories := None; workout := None; running := None |} ] in
  let n := List.length (Locals.recentEntries es) in
  let c := Locals.confidence es in
  let r := predictWeight
             (Some {| height := num 165; age := num 30; gender := None |})
             (Some es) (num 70) in
  n = Nat.min 7 (List.length es)
  /\ (1 <= n <= 7)%nat
  /\ Prediction.daysOfData r = Some n
  /\ c == Qmin (ofnat n / 7) 1
  /\ 0 <= c <= 1
  /\ (c == 1 <-> (7 <= n)%nat)
  /\ (forall es' : list DailyEntry,
         (List.length es < List.length es' <= 7)%nat ->
         c < Locals.confidence es')
  /\ Prediction.confidence r = Math_round (c * 100).
Proof.
  apply predictWeight_confidence.
  - discriminate.
  - reflexivity.
Defined.

(** ** Activity-level inference *)

Lemma fold_left_list_sum {A : Type} (f : A -> nat) (l : list A) (a : nat) :
  fold_left (fun sum x => (sum + f x)%nat) l a = (a + list_sum (map f l))%nat.
Proof.
  revert a. induction l as [|x l IH]; intros a; simpl.
  - lia.
  - rewrite IH. lia.
Qed.





(** ** Exercise calories *)









(** ** Time to goal *)

Lemma addDays_0 (d : Date) : addDays d 0 = d.
Proof.
  destruct d as [dy ms]. unfold addDays. simpl. rewrite Z.add_0_r. reflexivity.
Qed.

Lemma Qle_bool_false (x y : Q) : Qle_bool x y = false <-> y < x.
Proof.
  split.
  - intros H. apply Qnot_le_lt. intros L. apply Qle_bool_iff in L. congruence.
  - intros H. destruct (Qle_bool x y) eqn:E; [|reflexivity].
    apply Qle_bool_iff in E. lra.
Qed.

(** ** Purity *)

Lemma store_fresh (h : heap) (a b : list WeightEntry) :
  store (List.length h) a (h ++ [b]) = h ++ [a].
Proof.
  induction h as [|x h IH]; simpl.
  - reflexivity.
  - rewrite IH. reflexivity.
Qed.

Lemma nth_fresh (h : heap) (a : list WeightEntry) :
  nth (List.length h) (h ++ [a]) [] = a.
Proof.
  rewrite app_nth2 by lia. rewrite Nat.sub_diag. reflexivity.
Qed.

Lemma calculateWeightLossRate_run (l : loc) (h : heap) :
  calculateWeightLossRate (Some l) h
  = (lossRate (nth l h []),
     if (List.length (nth l h []) <? 2)%nat then h
     else h ++ [sort_by byDate (nth l h [])]).
Proof.
  unfold calculateWeightLossRate, lossRate, bind, deref.
  destruct (List.length (nth l h []) <? 2)%nat; [reflexivity|].
  unfold spread, sort. rewrite nth_fresh, store_fresh, nth_fresh. cbv zeta.
  destruct (nth_error (sort_by byDate (nth l h [])) 0) as [first|];
    [|reflexivity].
  destruct (nth_error _ _) as [last|]; [|reflexivity].
  destruct (weekNumber last - weekNumber first =? 0)%Z; reflexivity.
Qed.

(** C9, refuted as stated: two calls of [calculateTimeToGoal] with the same
    arguments, made on different days, return different results. *)
Lemma calculateTimeToGoal_reads_the_clock :
  calculateTimeToGoal {| day := 20000; msOfDay := 0 |} (num 80) (num 70) (-1)
  <> calculateTimeToGoal {| day := 20001; msOfDay := 0 |} (num 80) (num 70) (-1).
Proof.
  vm_compute. discriminate.
Qed.

(** C9, amended: [calculateTimeToGoal] reads the current date: its
    [weeksRemaining] and [achieved] are functions of its arguments alone,
    while [estimatedDate], when not null, is the current date moved by
    7 x weeksRemaining days.  [calculateWeightLossRate] sorts a copy: it
    leaves every array of the heap as it was, its argument included, and
    its result is a function of the elements of its argument alone.  (The
    other functions of the engine read no state and call no mutating
    method; they are functions in this development.) *)
Theorem engine_purity :
  (forall now now' currentWeight goalWeight avgWeeklyLoss,
      let r := calculateTimeToGoal now currentWeight goalWeight avgWeeklyLoss in
      let r' := calculateTimeToGoal now' currentWeight goalWeight avgWeeklyLoss in
      TimeToGoal.weeksRemaining r = TimeToGoal.weeksRemaining r'
      /\ TimeToGoal.achieved r = TimeToGoal.achieved r'
      /\ TimeToGoal.estimatedDate r
         = option_map (fun w => addDays now (w * 7)) (TimeToGoal.weeksRemaining r))
  /\ (forall (l : loc) (h : heap),
         firstn (List.length h) (snd (calculateWeightLossRate (Some l) h)) = h
         /\ snd (calculateWeightLossRate None h) = h)
  /\ (forall (l l' : loc) (h h' : heap),
         nth l h [] = nth l' h' [] ->
         fst (calculateWeightLossRate (Some l) h)
         = fst (calculateWeightLossRate (Some l') h')).
Proof.
  split; [|split].
  - intros now now' cw gw awl r r'. subst r r'. unfold calculateTimeToGoal.
    destruct (negb (truthy cw) || negb (truthy gw) || Qle_bool 0 awl);
      [repeat split; reflexivity|].
    destruct (Qle_bool (ToNumber cw - ToNumber gw) 0); simpl.
    + rewrite addDays_0. repeat split; reflexivity.
    + repeat split; reflexivity.
  - intros l h. rewrite calculateWeightLossRate_run. simpl. split.
    + destruct (List.length (nth l h []) <? 2)%nat.
      * apply firstn_all.
      * rewrite firstn_app, Nat.sub_diag, firstn_all. simpl.
        apply app_nil_r.
    + reflexivity.
  - intros l l' h h' E. rewrite !calculateWeightLossRate_run. simpl.
    rewrite E. reflexivity.
Qed.

Lemma engine_purity_witness :
  let a := {| date := 0; actualWeight := 80; weekNumber := 0 |} in
  let b := {| date := 2419200000; actualWeight := 76; weekNumber := 4 |} in
  fst (calculateWeightLossRate (Some 0%nat) [[b; a]])
  = fst (calculateWeightLossRate (Some 1%nat) [[]; [b; a]]).
Proof.
  intros a b.
  apply (proj2 (proj2 engine_purity) 0%nat 1%nat [[b; a]] [[]; [b; a]]).
  reflexivity.
Defined.

(** ** The worked examples of the specification *)

Example calculateTDEE_1500_moderate :
  exists q, calculateTDEE (num 1500) "moderate" = num q /\ q == 2325.
Proof.
  eexists. split; reflexivity.
Qed.

Example calculateTDEE_null : calculateTDEE null "active" = null.
Proof. reflexivity. Qed.

Example calculateExerciseCalories_chest :
  calculateExerciseCalories
    (num 70)
    {| calories := None;
       workout := Some {| workout_completed := true;
                          exercises := Some ["chest"%string] |};
       running := Some {| running_completed := false; distance := num 0 |} |}
  = 210%Z.
Proof. reflexivity. Qed.

Example getWeeklyActivityLevel_week_67 :
  let gym := {| calories := None;
                workout := Some {| workout_completed := true;
                                   exercises := Some ["back"; "leg"]%string |};
                running := None |} in
  let run := {| calories := None;
                workout := None;
                running := Some {| running_completed := true;
                                   distance := num 5 |} |} in
  score_with tagCount [gym; gym; gym; run] == 67
  /\ getWeeklyActivityLevel (Some [gym; gym; gym; run]) = "moderate"%string.
Proof.
  split; reflexivity.
Qed.

Example calculateWeightLossRate_4_weeks :
  let first := {| date := 0; actualWeight := 80; weekNumber := 0 |} in
  let last := {| date := 2419200000; actualWeight := 76; weekNumber := 4 |} in
  fst (calculateWeightLossRate (Some 0%nat) [[last; first]]) == - (1)
  /\ snd (calculateWeightLossRate (Some 0%nat) [[last; first]])
     = [[last; first]; [first; last]].
Proof.
  split; reflexivity.
Qed.

(** * Further properties of the engine *)

(** ** Rounding *)

Lemma Math_round_bounds (x : Q) :
  x - (1 # 2) < inject_Z (Math_round x) /\ inject_Z (Math_round x) <= x + (1 # 2).
Proof.
  unfold Math_round.
  pose proof (Qfloor_le (x + (1 # 2))) as L.
  pose proof (Qlt_floor (x + (1 # 2))) as U.
  rewrite inject_Z_plus in U. change (inject_Z 1) with 1 in U.
  split; lra.
Qed.

Lemma Math_round_le (x y : Q) : x <= y -> (Math_round x <= Math_round y)%Z.
Proof.
  intros H. unfold Math_round. apply Qfloor_resp_le. lra.
Qed.

Lemma round1_bounds (x : Q) :
  x - (1 # 20) < round1 x /\ round1 x <= x + (1 # 20).
Proof.
  unfold round1, Qdiv. change (/ 10) with (1 # 10).
  destruct (Math_round_bounds (x * 10)) as [L U]. split; lra.
Qed.

Lemma round1_le (x y : Q) : x <= y -> round1 x <= round1 y.
Proof.
  intros H. unfold round1, Qdiv. change (/ 10) with (1 # 10).
  assert (M : (Math_round (x * 10) <= Math_round (y * 10))%Z)
    by (apply Math_round_le; lra).
  rewrite Zle_Qle in M. lra.
Qed.

(** ** TDEE *)

Lemma multiplier_of_range (level : string) :
  1.2 <= multiplier_of level /\ multiplier_of level <= 1.9.
Proof.
  unfold multiplier_of, prop, multipliers. simpl.
  repeat match goal with
         | |- context [String.eqb ?a ?b] => destruct (String.eqb a b)
         end; simpl; split; lra.
Qed.

(** X1: [calculateTDEE] returns [null] exactly when the BMR is missing or
    zero; for a positive BMR and an activity level that is not an inherited
    property name, it returns the BMR times the multiplier of the level, a
    number between 1.2 and 1.9 times the BMR; such a level outside the
    table counts as sedentary. *)
Theorem calculateTDEE_range :
  (forall bmr level, calculateTDEE bmr level = null <-> missing bmr)
  /\ (forall b level,
         0 < b -> plain_key level ->
         exists q, calculateTDEE (num b) level = num q
                   /\ q == b * multiplier_of level
                   /\ 1.2 * b <= q /\ q <= 1.9 * b)
  /\ (forall level,
         ~ In level (map fst multipliers) -> plain_key level ->
         multiplier_of level = 1.2).
Proof.
  split; [|split].
  - intros bmr level. rewrite <- truthy_false. unfold calculateTDEE.
    destruct (truthy bmr); simpl.
    + split; discriminate.
    + split; reflexivity.
  - intros b level Hb _. unfold calculateTDEE. simpl truthy.
    assert (T : truthyQ b = true) by (apply truthyQ_true; lra).
    rewrite T. simpl negb. cbv iota zeta. eexists. split; [reflexivity|].
    simpl ToNumber. fold (multiplier_of level).
    destruct (multiplier_of_range level) as [L U].
    split; [reflexivity|]. split; nra.
  - intros level H _. unfold multiplier_of, prop, multipliers in *. simpl in *.
    repeat match goal with
           | |- context [String.eqb ?a ?b] =>
               destruct (String.eqb_spec a b); [exfalso; intuition congruence|]
           end.
    reflexivity.
Qed.

Lemma calculateTDEE_range_witness :
  (exists q, calculateTDEE (num 1500) "moderate" = num q
             /\ q == 1500 * multiplier_of "moderate"
             /\ 1.2 * 1500 <= q /\ q <= 1.9 * 1500)
  /\ multiplier_of "athlete" = 1.2.
Proof.
  split.
  - apply (proj1 (proj2 calculateTDEE_range) 1500 "moderate"%string).
    + reflexivity.
    + unfold plain_key. simpl. intuition discriminate.
  - apply (proj2 (proj2 calculateTDEE_range) "athlete"%string).
    + simpl. intuition discriminate.
    + unfold plain_key. simpl. intuition discriminate.
Defined.

(** ** Activity levels *)

Lemma getWeeklyActivityLevel_in_levels (w : option (list DailyEntry)) :
  In (getWeeklyActivityLevel w) levels.
Proof.
  unfold getWeeklyActivityLevel, levels.
  destruct w as [[|e es]|]; [simpl; tauto| |simpl; tauto].
  cbv zeta.
  repeat match goal with
         | |- context [Qle_bool ?a ?b] => destruct (Qle_bool a b)
         end; simpl; tauto.
Qed.

(** X2: whatever the week, also missing or empty, the inferred activity
    level is one of sedentary, light, moderate, active, veryActive, so
    [calculateTDEE] finds its multiplier in the table and never falls
    back to the default. *)
Theorem getWeeklyActivityLevel_has_multiplier :
  forall w : option (list DailyEntry),
    In (getWeeklyActivityLevel w) levels
    /\ exists m, lookup (getWeeklyActivityLevel w) multipliers = Some m
                 /\ multiplier_of (getWeeklyActivityLevel w) = m.
Proof.
  intros w. pose proof (getWeeklyActivityLevel_in_levels w) as H.
  split; [exact H|].
  unfold levels in H. simpl in H.
  destruct H as [H|[H|[H|[H|[H|[]]]]]]; rewrite <- H;
    eexists; split; reflexivity.
Qed.







(** ** Averages *)

Lemma ofnat_S (n : nat) : ofnat (S n) == ofnat n + 1.
Proof.
  unfold ofnat. rewrite Nat2Z.inj_succ. unfold Z.succ.
  rewrite inject_Z_plus. reflexivity.
Qed.

Lemma ofnat_pos (n : nat) : (0 < n)%nat -> 0 < ofnat n.
Proof.
  intros H. change 0 with (ofnat 0). apply ofnat_lt. exact H.
Qed.

Lemma sumQ_bounds (l : list Q) (lo hi : Q) :
  Forall (fun x => lo <= x /\ x <= hi) l ->
  ofnat (List.length l) * lo <= sumQ l /\ sumQ l <= ofnat (List.length l) * hi.
Proof.
  induction 1 as [|x l [Hlo Hhi] _ [IHlo IHhi]].
  - simpl. change (ofnat 0) with 0. split; lra.
  - cbn [List.length sumQ fold_right]. fold (sumQ l). rewrite ofnat_S.
    split; lra.
Qed.

Lemma mean_bounds (l : list Q) (lo hi : Q) :
  l <> [] ->
  Forall (fun x => lo <= x /\ x <= hi) l ->
  lo <= mean l /\ mean l <= hi.
Proof.
  intros Hl H. destruct (sumQ_bounds l lo hi H) as [L U].
  assert (P : 0 < ofnat (List.length l)).
  { apply ofnat_pos. destruct l; [congruence | simpl; lia]. }
  unfold mean. split.
  - apply Qle_shift_div_l; [exact P|]. lra.
  - apply Qle_shift_div_r; [exact P|]. lra.
Qed.

Lemma filter_length_bound {A : Type} (f : A -> bool) (l : list A) :
  (List.length (filter f l) <= List.length l)%nat.
Proof.
  induction l as [|x l IH]; simpl; [lia|].
  destruct (f x); simpl; lia.
Qed.

(** X5: for a non-empty array and a positive number of days,
    [calculateAverages] works on the first [days] entries only: it returns
    them as [entries], counts at most that many workout and running days,
    and its rounded average of [calories.total] lies between the rounded
    bounds of the totals of those entries. *)
Theorem calculateAverages_bounds :
  forall (es : list DailyEntry) (days : nat) (lo hi : Q),
    es <> [] ->
    (0 < days)%nat ->
    Forall (fun e => lo <= or_num (caloriesTotal e) 0
                     /\ or_num (caloriesTotal e) 0 <= hi)
           (firstn days es) ->
    let r := calculateAverages (Some es) days in
    Averages.entries r = Some (firstn days es)
    /\ (Averages.workoutDays r <= Nat.min days (List.length es))%nat
    /\ (Averages.runningDays r <= Nat.min days (List.length es))%nat
    /\ (Math_round lo <= Averages.avgCalories r)%Z
    /\ (Averages.avgCalories r <= Math_round hi)%Z.
Proof.
  intros es days lo hi Hes Hdays H r.
  destruct es as [|e es]; [congruence|]. clear Hes.
  subst r. unfold calculateAverages. cbv zeta.
  cbn [Averages.entries Averages.workoutDays Averages.runningDays
       Averages.avgCalories].
  split; [reflexivity|].
  rewrite <- (length_firstn days (e :: es)).
  split; [apply filter_length_bound|]. split; [apply filter_length_bound|].
  assert (E : fold_left (fun sum entry => sum + or_num (caloriesTotal entry) 0)
                        (firstn days (e :: es)) 0
              / ofnat (List.length (firstn days (e :: es)))
              == mean (map (fun x => or_num (caloriesTotal x) 0)
                           (firstn days (e :: es)))).
  { unfold mean. rewrite fold_left_sumQ, length_map. unfold Qdiv. ring. }
  rewrite (Math_round_comp _ _ E).
  assert (B : lo <= mean (map (fun x => or_num (caloriesTotal x) 0)
                              (firstn days (e :: es)))
              /\ mean (map (fun x => or_num (caloriesTotal x) 0)
                           (firstn days (e :: es))) <= hi).
  { apply mean_bounds.
    - destruct days; [lia | discriminate].
    - apply Forall_map. exact H. }
  split; apply Math_round_le; tauto.
Qed.

Lemma calculateAverages_bounds_witness :
  let es := [ {| calories := Some {| total := num 2100 |};
                 workout := None; running := None |};
              {| calories := Some {| total := num 1800 |};
                 workout := None; running := None |} ] in
  let r := calculateAverages (Some es) 7 in
  Averages.entries r = Some (firstn 7 es)
  /\ (Averages.workoutDays r <= Nat.min 7 (List.length es))%nat
  /\ (Averages.runningDays r <= Nat.min 7 (List.length es))%nat
  /\ (Math_round 1800 <= Averages.avgCalories r)%Z
  /\ (Averages.avgCalories r <= Math_round 2100)%Z.
Proof.
  intros es. apply (calculateAverages_bounds es 7 1800 2100).
  - discriminate.
  - lia.
  - repeat constructor; vm_compute; discriminate.
Defined.

(** ** The weight forecast: what it depends on *)

Lemma recentEntries_firstn_7 (es : list DailyEntry) :
  Locals.recentEntries (firstn 7 es) = Locals.recentEntries es.
Proof.
  unfold Locals.recentEntries.
  rewrite firstn_firstn, length_firstn. f_equal. lia.
Qed.

(** X6: [predictWeight] reads the first seven daily entries only: the
    entries after them do not change any field of the prediction. *)
Theorem predictWeight_first_seven :
  forall (profile : option Profile) (dailyEntries : list DailyEntry)
         (currentWeight : jsval),
    predictWeight profile (Some dailyEntries) currentWeight
    = predictWeight profile (Some (firstn 7 dailyEntries)) currentWeight.
Proof.
  intros profile dailyEntries cw.
  destruct dailyEntries as [|e es]; [reflexivity|].
  destruct profile as [p|]; [|reflexivity].
  destruct (truthy cw) eqn:T;
    [|unfold predictWeight; rewrite T; reflexivity].
  change (firstn 7 (e :: es)) with (e :: firstn 6 es).
  rewrite (predictWeight_regular p e es cw T).
  rewrite (predictWeight_regular p e (firstn 6 es) cw T).
  cbv zeta.
  change (e :: firstn 6 es) with (firstn 7 (e :: es)).
  unfold Locals.dampedPrediction, Locals.predictedWeight,
    Locals.dailyWeightChange, Locals.dailyBalance, Locals.tdee,
    Locals.averages, Locals.avgExerciseCalories, Locals.activityLevel,
    Locals.confidence.
  rewrite recentEntries_firstn_7. reflexivity.
Qed.

Lemma confidence_range (es : list DailyEntry) :
  es <> [] -> (1 # 7) <= Locals.confidence es /\ Locals.confidence es <= 1.
Proof.
  intros Hes.
  assert (H1 : (1 <= List.length es)%nat)
    by (destruct es; [congruence | simpl; lia]).
  destruct (Nat.lt_ge_cases (List.length es) 7) as [Hlt|Hge].
  - rewrite (confidence_below _ Hlt).
    pose proof (ofnat_lt _ _ Hlt) as U. change (ofnat 7) with 7 in U.
    pose proof (ofnat_le _ _ H1) as L. change (ofnat 1) with 1 in L.
    unfold Qdiv. change (/ 7) with (1 # 7). split; lra.
  - rewrite (confidence_full _ Hge). split; lra.
Qed.

(** X7: the reported confidence tells the zeroed prediction from a real
    one: it is 0 exactly when the profile is missing, the current weight
    is missing or falsy, or the list of entries is missing or empty, and
    it lies between 14 and 100 otherwise. *)
Theorem predictWeight_confidence_zero :
  forall profile dailyEntries currentWeight,
    let r := predictWeight profile dailyEntries currentWeight in
    (Prediction.confidence r = 0%Z
     <-> degenerate profile dailyEntries currentWeight)
    /\ (Prediction.confidence r <> 0%Z ->
        (14 <= Prediction.confidence r <= 100)%Z).
Proof.
  intros profile dailyEntries cw r.
  assert (D : degenerate profile dailyEntries cw
              \/ (14 <= Prediction.confidence r <= 100)%Z).
  { subst r. unfold degenerate. rewrite <- truthy_false.
    destruct profile as [p|]; [|tauto].
    destruct dailyEntries as [[|e es]|]; [tauto| |tauto].
    destruct (truthy cw) eqn:T; [|tauto].
    right. rewrite (predictWeight_regular p e es cw T). cbv zeta.
    cbn [Prediction.confidence].
    assert (N : e :: es <> []) by discriminate.
    destruct (confidence_range (e :: es) N) as [L U].
    split.
    - apply Z.le_trans with (Math_round ((1 # 7) * 100));
        [vm_compute; discriminate | apply Math_round_le; lra].
    - apply Z.le_trans with (Math_round (1 * 100));
        [apply Math_round_le; lra | vm_compute; discriminate]. }
  split; [split|].
  - intros Z0. destruct D as [D|D]; [exact D | lia].
  - intros H. subst r. rewrite (predictWeight_degenerate _ _ _ H).
    reflexivity.
  - intros NZ. destruct D as [D|D]; [|exact D].
    exfalso. apply NZ. subst r. rewrite (predictWeight_degenerate _ _ _ D).
    reflexivity.
Qed.

Lemma predictWeight_confidence_zero_witness :
  let r := predictWeight
             (Some {| height := num 165; age := num 30; gender := None |})
             (Some [ {| calories := None; workout := None; running := None |} ])
             (num 70) in
  (14 <= Prediction.confidence r <= 100)%Z.
Proof.
  intros r.
  apply (proj2 (predictWeight_confidence_zero
                  (Some {| height := num 165; age := num 30; gender := None |})
                  (Some [ {| calories := None; workout := None;
                             running := None |} ])
                  (num 70))).
  vm_compute. discriminate.
Defined.

(** ** The weight forecast: more calories, higher forecast *)











(** ** Exercise calories and the weight *)




(** ** The sort by date and the loss rate *)

Lemma insert_by_Permutation {A : Type} (cmp : A -> A -> Z) (x : A) (l : list A) :
  Permutation (insert_by cmp x l) (x :: l).
Proof.
  induction l as [|y l IH]; simpl.
  - apply Permutation_refl.
  - destruct (cmp x y <=? 0)%Z.
    + apply Permutation_refl.
    + apply perm_trans with (y :: x :: l).
      * apply perm_skip. exact IH.
      * apply perm_swap.
Qed.

Lemma sort_by_Permutation {A : Type} (cmp : A -> A -> Z) (l : list A) :
  Permutation (sort_by cmp l) l.
Proof.
  induction l as [|x l IH]; simpl.
  - apply Permutation_refl.
  - apply perm_trans with (x :: sort_by cmp l).
    + apply insert_by_Permutation.
    + apply perm_skip. exact IH.
Qed.

Lemma insert_by_ascending (x : WeightEntry) (l : list WeightEntry) :
  ascending l -> ascending (insert_by byDate x l).
Proof.
  unfold ascending. induction l as [|y l IH]; intros H; simpl.
  - constructor; constructor.
  - apply StronglySorted_inv in H. destruct H as [Hl Hy].
    destruct (byDate x y <=? 0)%Z eqn:C.
    + apply Z.leb_le in C. unfold byDate in C.
      constructor; [constructor; assumption|].
      constructor; [lia|].
      eapply Forall_impl; [|exact Hy]. simpl. intros z Hz. lia.
    + apply Z.leb_gt in C. unfold byDate in C.
      constructor; [apply IH; exact Hl|].
      eapply Permutation_Forall;
        [apply Permutation_sym, insert_by_Permutation|].
      constructor; [lia | exact Hy].
Qed.

Lemma sort_by_ascending (l : list WeightEntry) : ascending (sort_by byDate l).
Proof.
  induction l as [|x l IH]; simpl.
  - constructor.
  - apply insert_by_ascending. exact IH.
Qed.


Lemma ascending_unique (l1 l2 : list WeightEntry) :
  ascending l1 -> ascending l2 -> Permutation l1 l2 ->
  NoDup (map date l1) -> l1 = l2.
Proof.
  unfold ascending. intros H1. revert l2.
  induction H1 as [|a t1 Ht1 IH Ha]; intros l2 H2 P N.
  - apply Permutation_nil in P. congruence.
  - destruct l2 as [|b t2].
    { apply Permutation_sym, Permutation_nil in P. discriminate. }
    apply StronglySorted_inv in H2. destruct H2 as [Ht2 Hb].
    rewrite Forall_forall in Ha, Hb.
    assert (Ia : In a (b :: t2)).
    { eapply Permutation_in; [exact P | left; reflexivity]. }
    assert (Ib : In b (a :: t1)).
    { eapply Permutation_in; [apply Permutation_sym; exact P
                             | left; reflexivity]. }
    assert (E : a = b).
    { destruct Ib as [Ib|Ib]; [exact Ib|].
      destruct Ia as [Ia|Ia]; [congruence|].
      exfalso. pose proof (Ha b Ib) as L1. pose proof (Hb a Ia) as L2.
      simpl in L1, L2.
      assert (D : date a = date b) by lia.
      inversion N as [|? ? Nin _]. subst. apply Nin.
      rewrite D. apply in_map. exact Ib. }
    subst b. f_equal. apply IH.
    + exact Ht2.
    + eapply Permutation_cons_inv. exact P.
    + inversion N. assumption.
Qed.





(** X13: when no two weight entries have the same date, the loss rate does
    not depend on the order of the entries in the array. *)
Theorem calculateWeightLossRate_Permutation :
  forall (l l' : loc) (h h' : heap),
    NoDup (map date (nth l h [])) ->
    Permutation (nth l h []) (nth l' h' []) ->
    fst (calculateWeightLossRate (Some l) h)
    = fst (calculateWeightLossRate (Some l') h').
Proof.
  intros l l' h h' N P. rewrite !calculateWeightLossRate_run. simpl fst.
  unfold lossRate. rewrite (Permutation_length P).
  assert (E : sort_by byDate (nth l h []) = sort_by byDate (nth l' h' [])).
  { apply ascending_unique.
    - apply sort_by_ascending.
    - apply sort_by_ascending.
    - apply perm_trans with (nth l h []); [apply sort_by_Permutation|].
      apply perm_trans with (nth l' h' []); [exact P|].
      apply Permutation_sym, sort_by_Permutation.
    - eapply Permutation_NoDup; [|exact N].
      apply Permutation_map, Permutation_sym, sort_by_Permutation. }
  rewrite E. reflexivity.
Qed.

Lemma calculateWeightLossRate_Permutation_witness :
  let a := {| date := 0; actualWeight := 80; weekNumber := 0 |} in
  let b := {| date := 2419200000; actualWeight := 76; weekNumber := 4 |} in
  fst (calculateWeightLossRate (Some 0%nat) [[b; a]])
  = fst (calculateWeightLossRate (Some 0%nat) [[a; b]]).
Proof.
  intros a b.
  apply (calculateWeightLossRate_Permutation 0%nat 0%nat [[b; a]] [[a; b]]).
  - simpl. repeat constructor; simpl; intuition discriminate.
  - apply perm_swap.
Defined.

(** ** BMI, its categories and the healthy weight range *)

Lemma Math_round_lt_iff (y : Q) (z : Z) :
  (Math_round y < z)%Z <-> y < inject_Z z - (1 # 2).
Proof.
  destruct (Math_round_bounds y) as [L U]. split.
  - intros H. assert (H' : (Math_round y <= z - 1)%Z) by lia.
    rewrite Zle_Qle in H'. unfold Z.sub in H'. rewrite inject_Z_plus in H'.
    change (inject_Z (- (1))) with (- (1)) in H'. lra.
  - intros H. rewrite Zlt_Qlt. lra.
Qed.

Lemma round1_lt_iff (x : Q) (z : Z) :
  round1 x < inject_Z z / 10 <-> x < inject_Z z / 10 - (1 # 20).
Proof.
  unfold round1, Qdiv. change (/ 10) with (1 # 10).
  pose proof (Math_round_lt_iff (x * 10) z) as M.
  rewrite Zlt_Qlt in M. split; intros H.
  - assert (H' : inject_Z (Math_round (x * 10)) < inject_Z z) by lra.
    apply M in H'. lra.
  - assert (H' : x * 10 < inject_Z z - (1 # 2)) by lra.
    apply M in H'. lra.
Qed.

Lemma Qlt_bool_iff (x y : Q) : Qlt_bool x y = true <-> x < y.
Proof.
  unfold Qlt_bool. rewrite negb_true_iff. apply Qle_bool_false.
Qed.

Lemma Qlt_bool_false (x y : Q) : Qlt_bool x y = false <-> y <= x.
Proof.
  unfold Qlt_bool. rewrite negb_false_iff. apply Qle_bool_iff.
Qed.

Lemma calculateBMI_round1 (w h : Q) :
  ~ w == 0 -> ~ h == 0 ->
  calculateBMI (num w) (num h) = num (round1 (w / ((h / 100) * (h / 100)))).
Proof.
  intros Hw Hh. apply truthyQ_true in Hw, Hh.
  unfold calculateBMI. simpl truthy. rewrite Hw, Hh. reflexivity.
Qed.

Lemma bmi_category_limits :
  forall w h : Q,
    0 < w -> ~ h == 0 ->
    let x := w / ((h / 100) * (h / 100)) in
    let c := getBMICategory (calculateBMI (num w) (num h)) in
    (x < 0.05 -> c = "Unknown"%string)
    /\ (0.05 <= x -> x < 18.45 -> c = "Underweight"%string)
    /\ (18.45 <= x -> x < 24.95 -> c = "Normal"%string)
    /\ (24.95 <= x -> x < 29.95 -> c = "Overweight"%string)
    /\ (29.95 <= x -> c = "Obese"%string).
Proof.
  intros w h Hw Hh x c.
  assert (Nw : ~ w == 0) by lra.
  subst c. rewrite (calculateBMI_round1 w h Nw Hh). fold x.
  assert (Px : 0 < x).
  { subst x. apply Qlt_shift_div_l; [|rewrite Qmult_0_l; exact Hw].
    unfold Qdiv. change (/ 100) with (1 # 100).
    destruct (Qlt_le_dec h 0); nra. }
  clearbody x.
  assert (T1 : round1 x < 0.1 <-> x < 0.1 - (1 # 20))
    by exact (round1_lt_iff x 1).
  assert (T185 : round1 x < 18.5 <-> x < 18.5 - (1 # 20))
    by exact (round1_lt_iff x 185).
  assert (T250 : round1 x < 25 <-> x < 25 - (1 # 20)).
  { pose proof (round1_lt_iff x 250) as T.
    setoid_replace (inject_Z 250 / 10) with 25 in T by reflexivity. exact T. }
  assert (T300 : round1 x < 30 <-> x < 30 - (1 # 20)).
  { pose proof (round1_lt_iff x 300) as T.
    setoid_replace (inject_Z 300 / 10) with 30 in T by reflexivity. exact T. }
  assert (Z0 : x < 0.05 -> round1 x == 0).
  { intros H. pose proof (round1_bounds x) as [L U].
    assert (A : round1 x < 0.1) by (apply T1; lra).
    unfold round1 in *. unfold Qdiv in *. change (/ 10) with (1 # 10) in *.
    assert (B1 : inject_Z (Math_round (x * 10)) < inject_Z 1)
      by (change (inject_Z 1) with 1; lra).
    assert (B2 : inject_Z (- (1)) < inject_Z (Math_round (x * 10)))
      by (change (inject_Z (- (1))) with (- (1)); lra).
    rewrite <- Zlt_Qlt in B1, B2.
    assert (M : Math_round (x * 10) = 0%Z) by lia.
    rewrite M. reflexivity. }
  assert (P0 : 0.05 <= x -> truthyQ (round1 x) = true).
  { intros H. apply truthyQ_true. intros E.
    assert (A : round1 x < 0.1) by (rewrite E; reflexivity).
    apply T1 in A. lra. }
  assert (B185 : 18.45 <= x -> Qlt_bool (round1 x) 18.5 = false).
  { intros H. apply Qlt_bool_false. apply Qnot_lt_le. intros A.
    apply T185 in A. lra. }
  assert (B250 : 24.95 <= x -> Qlt_bool (round1 x) 25 = false).
  { intros H. apply Qlt_bool_false. apply Qnot_lt_le. intros A.
    apply T250 in A. lra. }
  assert (B300 : 29.95 <= x -> Qlt_bool (round1 x) 30 = false).
  { intros H. apply Qlt_bool_false. apply Qnot_lt_le. intros A.
    apply T300 in A. lra. }
  unfold getBMICategory. simpl truthy. simpl ToNumber.
  split; [|split; [|split; [|split]]].
  - intros H. apply Z0 in H. apply truthyQ_false in H. rewrite H. reflexivity.
  - intros L U. rewrite (P0 L). simpl negb.
    assert (B : Qlt_bool (round1 x) 18.5 = true)
      by (apply Qlt_bool_iff, T185; lra).
    rewrite B. reflexivity.
  - intros L U. rewrite (P0 ltac:(lra)), (B185 L). simpl negb.
    assert (B : Qlt_bool (round1 x) 25 = true)
      by (apply Qlt_bool_iff, T250; lra).
    rewrite B. reflexivity.
  - intros L U. rewrite (P0 ltac:(lra)), (B185 ltac:(lra)), (B250 L).
    simpl negb.
    assert (B : Qlt_bool (round1 x) 30 = true)
      by (apply Qlt_bool_iff, T300; lra).
    rewrite B. reflexivity.
  - intros L.
    rewrite (P0 ltac:(lra)), (B185 ltac:(lra)), (B250 ltac:(lra)), (B300 L).
    reflexivity.
Qed.



Lemma getHealthyWeightRange_some (h : Q) :
  ~ h == 0 ->
  getHealthyWeightRange (num h)
  = Some {| HealthyRange.min := round1 (18.5 * (h / 100) * (h / 100));
            HealthyRange.max := round1 (24.9 * (h / 100) * (h / 100)) |}.
Proof.
  intros Hh. apply truthyQ_true in Hh.
  unfold getHealthyWeightRange. simpl truthy. rewrite Hh. reflexivity.
Qed.

(** X16: [getHealthyWeightRange] returns [null] exactly when the height is
    0, [null] or [undefined]; otherwise its lower bound does not exceed its
    upper bound, and the bounds are within 0.05 kg of the weights of BMI
    18.5 and BMI 24.9 at that height. *)
Theorem getHealthyWeightRange_bounds :
  (forall height, getHealthyWeightRange height = None <-> missing height)
  /\ (forall h,
         ~ h == 0 ->
         exists r,
           getHealthyWeightRange (num h) = Some r
           /\ HealthyRange.min r <= HealthyRange.max r
           /\ 18.5 * h * h / 10000 - (1 # 20) < HealthyRange.min r
           /\ HealthyRange.min r <= 18.5 * h * h / 10000 + (1 # 20)
           /\ 24.9 * h * h / 10000 - (1 # 20) < HealthyRange.max r
           /\ HealthyRange.max r <= 24.9 * h * h / 10000 + (1 # 20)).
Proof.
  split.
  - intros height. rewrite <- truthy_false. unfold getHealthyWeightRange.
    destruct (truthy height); simpl; split; congruence.
  - intros h Hh. rewrite (getHealthyWeightRange_some h Hh).
    eexists. split; [reflexivity|]. cbn [HealthyRange.min HealthyRange.max].
    assert (E1 : 18.5 * (h / 100) * (h / 100) == 18.5 * h * h / 10000)
      by field.
    assert (E2 : 24.9 * (h / 100) * (h / 100) == 24.9 * h * h / 10000)
      by field.
    split.
    + apply round1_le. unfold Qdiv. change (/ 100) with (1 # 100).
      destruct (Qlt_le_dec h 0); nra.
    + rewrite <- E1, <- E2.
      pose proof (round1_bounds (18.5 * (h / 100) * (h / 100))).
      pose proof (round1_bounds (24.9 * (h / 100) * (h / 100))).
      tauto.
Qed.

Lemma getHealthyWeightRange_bounds_witness :
  exists r,
    getHealthyWeightRange (num 170) = Some r
    /\ HealthyRange.min r <= HealthyRange.max r
    /\ 18.5 * 170 * 170 / 10000 - (1 # 20) < HealthyRange.min r
    /\ HealthyRange.min r <= 18.5 * 170 * 170 / 10000 + (1 # 20)
    /\ 24.9 * 170 * 170 / 10000 - (1 # 20) < HealthyRange.max r
    /\ HealthyRange.max r <= 24.9 * 170 * 170 / 10000 + (1 # 20).
Proof.
  apply (proj2 getHealthyWeightRange_bounds 170).
  intros H. vm_compute in H. discriminate.
Defined.

(** X17: for a height above 100 cm, every weight between the two bounds of
    the healthy weight range has a BMI of category Normal. *)
Theorem healthy_range_is_normal :
  forall (h w : Q) (r : HealthyRange.t),
    100 < h ->
    getHealthyWeightRange (num h) = Some r ->
    HealthyRange.min r <= w -> w <= HealthyRange.max r ->
    getBMICategory (calculateBMI (num w) (num h)) = "Normal"%string.
Proof.
  intros h w r Hh Hr Hmin Hmax.
  assert (Nh : ~ h == 0) by lra.
  rewrite (getHealthyWeightRange_some h Nh) in Hr. injection Hr as <-.
  cbn [HealthyRange.min HealthyRange.max] in Hmin, Hmax.
  pose proof (round1_bounds (18.5 * (h / 100) * (h / 100))) as [L1 _].
  pose proof (round1_bounds (24.9 * (h / 100) * (h / 100))) as [_ U2].
  remember (round1 (18.5 * (h / 100) * (h / 100))) as lo.
  remember (round1 (24.9 * (h / 100) * (h / 100))) as hi.
  unfold Qdiv in L1, U2. change (/ 100) with (1 # 100) in L1, U2.
  assert (P : 0 < (h / 100) * (h / 100)).
  { unfold Qdiv. change (/ 100) with (1 # 100). nra. }
  assert (Pw : 0 < w) by nra.
  apply (proj1 (proj2 (proj2 (bmi_category_limits w h Pw Nh)))).
  - apply Qle_shift_div_l; [exact P|].
    unfold Qdiv. change (/ 100) with (1 # 100). nra.
  - apply Qlt_shift_div_r; [exact P|].
    unfold Qdiv. change (/ 100) with (1 # 100). nra.
Qed.

Lemma healthy_range_is_normal_witness :
  getBMICategory (calculateBMI (num 60) (num 170)) = "Normal"%string.
Proof.
  assert (Hh : 100 < 170) by reflexivity.
  assert (Nh : ~ 170 == 0) by (intros H; vm_compute in H; discriminate).
  apply (healthy_range_is_normal 170 60 _ Hh (getHealthyWeightRange_some 170 Nh));
    vm_compute; discriminate.
Defined.

(** * Properties in double precision *)

(** ** Lists and the window *)

Lemma double_fold_left_sum {A : Type} (f : A -> float) (l : list A) (a : float) :
  fold_left (fun sum x => (sum + f x)%float) l a
  = fold_left PrimFloat.add (map f l) a.
Proof.
  revert a. induction l as [|x l IH]; intros a; simpl.
  - reflexivity.
  - apply IH.
Qed.

Lemma double_window_length (es : list Double.DailyEntry) :
  List.length (Double.window es) = Nat.min 7 (List.length es).
Proof.
  unfold Double.window. rewrite length_firstn. lia.
Qed.

Lemma double_window_cons (e : Double.DailyEntry) (es : list Double.DailyEntry) :
  exists w, Double.window (e :: es) = e :: w.
Proof.
  unfold Double.window. simpl List.length.
  replace (Nat.min 7 (S (List.length es))) with (S (Nat.min 6 (List.length es)))
    by lia.
  simpl. eexists. reflexivity.
Qed.

Lemma double_firstn_7_window (es : list Double.DailyEntry) :
  firstn 7 (Double.window es) = Double.window es.
Proof.
  apply firstn_all2. rewrite double_window_length. lia.
Qed.

Lemma double_calculateAverages_cons (x : Double.DailyEntry)
      (l : list Double.DailyEntry) (days : nat) :
  Double.avgCalories (Double.calculateAverages (Some (x :: l)) days)
  = Double.Math_round
      (fold_left (fun sum entry =>
                    (sum + Double.or_num (Double.caloriesTotal entry) 0)%float)
                 (firstn days (x :: l)) 0%float
       / Double.ofnat (List.length (firstn days (x :: l))))%float.
Proof. reflexivity. Qed.

Lemma double_averages_avgCalories (e : Double.DailyEntry)
      (es : list Double.DailyEntry) :
  Double.avgCalories (Double.Locals.averages (e :: es))
  = Double.Math_round
      (Double.mean (map (fun x => Double.or_num (Double.caloriesTotal x) 0%float)
                        (Double.window (e :: es)))).
Proof.
  unfold Double.Locals.averages, Double.Locals.recentEntries.
  fold (Double.window (e :: es)).
  destruct (double_window_cons e es) as [w Hw].
  rewrite Hw, double_calculateAverages_cons, <- Hw, double_firstn_7_window.
  unfold Double.mean, Double.sum.
  rewrite double_fold_left_sum, length_map. reflexivity.
Qed.

Lemma double_avgExerciseCalories_mean (es : list Double.DailyEntry)
      (currentWeight : Double.jsval) :
  Double.Locals.avgExerciseCalories es currentWeight
  = Double.mean (map (fun x => Double.calculateExerciseCalories currentWeight x)
                     (Double.window es)).
Proof.
  unfold Double.Locals.avgExerciseCalories, Double.Locals.recentEntries.
  fold (Double.window es). unfold Double.mean, Double.sum.
  rewrite double_fold_left_sum, length_map. reflexivity.
Qed.

Lemma double_predictWeight_regular (profile : Double.Profile)
      (e : Double.DailyEntry) (dailyEntries : list Double.DailyEntry)
      (currentWeight : Double.jsval) :
  Double.truthy currentWeight = true ->
  let es := e :: dailyEntries in
  Double.predictWeight (Some profile) (Some es) currentWeight
  = {| Double.predictedWeight :=
         Double.num
           (Double.round1 (Double.Locals.dampedPrediction profile es currentWeight));
       Double.dailyBalance :=
         Double.Math_round (Double.Locals.dailyBalance profile es currentWeight);
       Double.tdee :=
         Double.Math_round
           (Double.ToNumber (Double.Locals.tdee profile es currentWeight));
       Double.bmr :=
         Double.Math_round
           (Double.ToNumber (Double.Locals.bmr profile currentWeight));
       Double.avgExerciseCalories :=
         Double.Math_round (Double.Locals.avgExerciseCalories es currentWeight);
       Double.activityLevel := Some (Double.Locals.activityLevel es);
       Double.confidence :=
         Double.Math_round (Double.Locals.confidence es * 100)%float;
       Double.daysOfData :=
         Some (List.length (Double.Locals.recentEntries es)) |}.
Proof.
  intros H es. unfold Double.predictWeight. rewrite H. reflexivity.
Qed.

(** ** The weight forecast in doubles *)

(** C1, refuted as stated: for a woman of 150 cm and 20 years at 63.1 kg
    with seven days of 3219 kcal the code reports 64.4, while the
    expression of the claim gives 64.5, in doubles as in exact arithmetic
    (BMR 1307.5, TDEE 1569, balance 1650, 63.1 + 1.35 = 64.45). *)
Lemma predictWeight_simplified_formula_differs :
  let profile := {| Double.height := Double.num 150;
                    Double.age := Double.num 20;
                    Double.gender := Some "female"%string |} in
  let day := {| Double.calories := Some {| Double.total := Double.num 3219 |};
                Double.workout := None;
                Double.running := None |} in
  let dailyEntries := [day; day; day; day; day; day; day] in
  let r := Double.predictWeight (Some profile) (Some dailyEntries)
                                (Double.num 63.1) in
  Double.predictedWeight r = Double.num 64.4
  /\ Double.simplifiedPrediction profile dailyEntries 63.1 = 64.5%float
  /\ round1 (63.1 + ((3219 - (mifflin 63.1 150 20 (Some "female"%string) * 1.2
                              + 0)) / 7700 * 7) * Qmin (7 / 7) 1 * 0.9)
     == 64.5
  /\ Double.predictedWeight r
     <> Double.num (Double.simplifiedPrediction profile dailyEntries 63.1).
Proof.
  intros profile day dailyEntries r.
  assert (A : Double.predictedWeight r = Double.num 64.4)
    by (vm_compute; reflexivity).
  assert (B : Double.simplifiedPrediction profile dailyEntries 63.1 = 64.5%float)
    by (vm_compute; reflexivity).
  split; [exact A|]. split; [exact B|]. split; [vm_compute; reflexivity|].
  rewrite A, B. intros H.
  apply (f_equal (fun v => match v with
                           | Double.num z => (z =? 64.4)%float
                           | _ => false
                           end)) in H.
  vm_compute in H. discriminate.
Qed.

(** C1, amended: for a profile with nonzero height and age, a non-empty
    list of daily entries and a nonzero current weight, over the window W
    of the first min(7, length) entries, with avgCalories the rounded mean
    of [calories.total], avgExerciseCalories the unrounded mean of the
    exercise-calorie estimates at the current weight and
    dailyBalance = avgCalories - (tdee + avgExerciseCalories), the
    predicted weight is Math.round(d * 10) / 10 where, each operation in
    doubles and in this order, raw = currentWeight + dailyBalance / 7700 * 7
    and d = currentWeight + (raw - currentWeight) * min(|W|/7, 1) * 0.9;
    the BMR is the Mifflin-St Jeor value of the current weight, the TDEE
    is [calculateTDEE] of it at the activity level inferred from W, and
    the daily balance, TDEE, BMR and average exercise calories are
    reported rounded to the nearest integer. *)
Theorem predictWeight_double_formula :
  forall (profile : Double.Profile) (dailyEntries : list Double.DailyEntry)
         (cw h a : float),
    Double.height profile = Double.num h -> Double.truthyF h = true ->
    Double.age profile = Double.num a -> Double.truthyF a = true ->
    dailyEntries <> [] ->
    Double.truthyF cw = true ->
    let W := Double.window dailyEntries in
    let avgCalories :=
      Double.Math_round
        (Double.mean (map (fun e => Double.or_num (Double.caloriesTotal e) 0%float)
                          W)) in
    let avgExerciseCalories :=
      Double.mean
        (map (fun e => Double.calculateExerciseCalories (Double.num cw) e) W) in
    let bmrVal :=
      Double.calculateBMR (Double.num cw) (Double.num h) (Double.num a)
                          (Double.gender profile) in
    let tdeeVal :=
      Double.calculateTDEE bmrVal (Double.getWeeklyActivityLevel (Some W)) in
    let dailyBalance :=
      (avgCalories - (Double.ToNumber tdeeVal + avgExerciseCalories))%float in
    let raw := (cw + dailyBalance / 7700 * 7)%float in
    let d :=
      (cw + (raw - cw) * Double.Math_min (Double.ofnat (List.length W) / 7) 1
            * 0.9)%float in
    let r := Double.predictWeight (Some profile) (Some dailyEntries)
                                  (Double.num cw) in
    List.length W = Nat.min 7 (List.length dailyEntries)
    /\ W = firstn (List.length W) dailyEntries
    /\ bmrVal
       = Double.num (if strict_eq (Double.gender profile) "female"
                     then 10 * cw + 6.25 * h - 5 * a - 161
                     else 10 * cw + 6.25 * h - 5 * a + 5)%float
    /\ Double.predictedWeight r
       = Double.num (Double.Math_round (d * 10) / 10)%float
    /\ Double.dailyBalance r = Double.Math_round dailyBalance
    /\ Double.tdee r = Double.Math_round (Double.ToNumber tdeeVal)
    /\ Double.bmr r = Double.Math_round (Double.ToNumber bmrVal)
    /\ Double.avgExerciseCalories r = Double.Math_round avgExerciseCalories.
Proof.
  intros profile dailyEntries cw h a Hh Th Ha Ta Hes Tcw.
  destruct dailyEntries as [|e es]; [congruence|]. clear Hes.
  intros W avgCalories avgExerciseCalories bmrVal tdeeVal dailyBalance raw d r.
  assert (T : Double.truthy (Double.num cw) = true) by exact Tcw.
  subst r. rewrite (double_predictWeight_regular profile e es (Double.num cw) T).
  cbv zeta.
  cbn [Double.predictedWeight Double.dailyBalance Double.tdee Double.bmr
       Double.avgExerciseCalories].
  assert (Eb : Double.Locals.bmr profile (Double.num cw) = bmrVal).
  { unfold Double.Locals.bmr. rewrite Hh, Ha. reflexivity. }
  assert (Et : Double.Locals.tdee profile (e :: es) (Double.num cw) = tdeeVal).
  { unfold Double.Locals.tdee. rewrite Eb. reflexivity. }
  assert (Ex : Double.Locals.avgExerciseCalories (e :: es) (Double.num cw)
               = avgExerciseCalories)
    by apply double_avgExerciseCalories_mean.
  assert (Ed : Double.Locals.dailyBalance profile (e :: es) (Double.num cw)
               = dailyBalance).
  { unfold Double.Locals.dailyBalance.
    rewrite double_averages_avgCalories, Et, Ex. reflexivity. }
  split; [apply double_window_length|].
  split.
  { change (Double.window (e :: es)
            = firstn (List.length (Double.window (e :: es))) (e :: es)).
    rewrite double_window_length. reflexivity. }
  split.
  { subst bmrVal. unfold Double.calculateBMR. cbn [Double.truthy Double.ToNumber].
    rewrite Tcw, Th, Ta. cbn [negb orb].
    destruct (strict_eq _ _); reflexivity. }
  split.
  { unfold Double.round1, Double.Locals.dampedPrediction,
      Double.Locals.predictedWeight, Double.Locals.dailyWeightChange,
      Double.Locals.confidence, Double.Locals.daysAhead,
      Double.CALORIES_PER_KG, Double.Locals.recentEntries.
    fold (Double.window (e :: es)). rewrite Ed. reflexivity. }
  rewrite Ed, Et, Eb, Ex. repeat split; reflexivity.
Qed.

Lemma predictWeight_double_formula_witness :
  let profile := {| Double.height := Double.num 150;
                    Double.age := Double.num 20;
                    Double.gender := Some "female"%string |} in
  let day := {| Double.calories := Some {| Double.total := Double.num 3219 |};
                Double.workout := None;
                Double.running := None |} in
  let dailyEntries := [day; day; day; day; day; day; day] in
  let r := Double.predictWeight (Some profile) (Some dailyEntries)
                                (Double.num 63.1) in
  Double.predictedWeight r = Double.num 64.4
  /\ Double.dailyBalance r = 1650%float
  /\ Double.tdee r = 1569%float
  /\ Double.bmr r = 1308%float
  /\ Double.avgExerciseCalories r = 0%float.
Proof.
  intros profile day dailyEntries r.
  destruct (predictWeight_double_formula
              profile dailyEntries 63.1 150 20
              eq_refl eq_refl eq_refl eq_refl
              ltac:(discriminate) eq_refl)
    as [_ [_ [_ [H1 [H2 [H3 [H4 H5]]]]]]].
  fold r in H1, H2, H3, H4, H5.
  rewrite H1, H2, H3, H4, H5.
  repeat split; vm_compute; reflexivity.
Defined.

(** ** Activity-level inference in doubles *)

Lemma double_exercisesLength_tags (e : Double.DailyEntry) :
  match Double.exercisesLength e with Some n => n | None => 0%nat end
  = List.length (Double.tags e).
Proof.
  unfold Double.exercisesLength, Double.tags.
  destruct (Double.workout e) as [w|]; [|reflexivity].
  destruct (exercises w); reflexivity.
Qed.

Lemma double_level_for_thresholds (s : float) :
  Double.level_for s (if (100 <=? s)%float then "veryActive"
                      else if (70 <=? s)%float then "active"
                      else if (40 <=? s)%float then "moderate"
                      else if (15 <=? s)%float then "light"
                      else "sedentary")%string.
Proof.
  destruct (100 <=? s)%float eqn:H100; [constructor; assumption|].
  destruct (70 <=? s)%float eqn:H70; [constructor; assumption|].
  destruct (40 <=? s)%float eqn:H40; [constructor; assumption|].
  destruct (15 <=? s)%float eqn:H15; [constructor; assumption|].
  apply Double.level_sedentary. assumption.
Qed.

(** C5: the inference returns sedentary on the empty list and otherwise
    maps the score 10 x (days with a completed workout) + 5 x (sum of
    running.distance over the days with a completed run) + 2 x (sum over
    the workout days of the number of distinct exercise tags) through the
    thresholds 100, 70, 40, 15, the sums being taken in doubles in the
    order of the array; the tags of a day form a set (no tag twice).  A
    week of three workout days with two tags each and one run of 5 km
    scores 67 and is moderate. *)
Theorem getWeeklyActivityLevel_double_spec :
  Double.getWeeklyActivityLevel (Some []) = "sedentary"%string
  /\ (forall es : list Double.DailyEntry,
         es <> [] ->
         Forall (fun e => NoDup (Double.tags e)) es ->
         Double.level_for (Double.score es)
                          (Double.getWeeklyActivityLevel (Some es)))
  /\ (let gym r :=
         {| Double.calories := None;
            Double.workout :=
              Some {| workout_completed := true;
                      exercises := Some ["chest"; "back"]%string |};
            Double.running := r |} in
       let week :=
         [gym (Some {| Double.running_completed := true;
                       Double.distance := Double.num 5 |});
          gym None; gym None] in
       Double.score week = 67%float
       /\ Double.getWeeklyActivityLevel (Some week) = "moderate"%string).
Proof.
  split; [reflexivity|]. split; [|split; vm_compute; reflexivity].
  intros [|e es] Hes Hn; [congruence|]. clear Hes.
  assert (Ec : list_sum (map Double.distinctTagCount
                             (filter Double.workoutCompleted (e :: es)))
               = list_sum (map (fun x => List.length (Double.tags x))
                               (filter Double.workoutCompleted (e :: es)))).
  { f_equal. apply map_ext_in. intros x Hx. apply filter_In in Hx.
    destruct Hx as [Hx _]. rewrite Forall_forall in Hn.
    unfold Double.distinctTagCount.
    rewrite (nodup_fixed_point string_dec (Hn x Hx)). reflexivity. }
  unfold Double.score. rewrite Ec.
  unfold Double.getWeeklyActivityLevel. cbv zeta.
  rewrite double_fold_left_sum, fold_left_list_sum.
  rewrite (map_ext _ _ double_exercisesLength_tags).
  rewrite Nat.add_0_l. apply double_level_for_thresholds.
Qed.

Lemma getWeeklyActivityLevel_double_spec_witness :
  let run d := {| Double.calories := None;
                  Double.workout := None;
                  Double.running :=
                    Some {| Double.running_completed := true;
                            Double.distance := Double.num d |} |} in
  let week := [run 2.4; run 2.8; run 2.8]%float in
  Double.getWeeklyActivityLevel (Some week) = "light"%string
  /\ Double.level_for (Double.score week) "light"
  /\ (Double.score week <? 40)%float = true.
Proof.
  intros run week.
  assert (E : Double.getWeeklyActivityLevel (Some week) = "light"%string)
    by (vm_compute; reflexivity).
  split; [exact E|]. split; [|vm_compute; reflexivity].
  rewrite <- E.
  apply (proj1 (proj2 getWeeklyActivityLevel_double_spec)).
  - discriminate.
  - repeat constructor.
Defined.

(** X3: the inferred level depends on the order of the days: the running
    distances are added in the order of the array, and in doubles
    2.4 + 2.8 + 2.8 is below 8 while 2.8 + 2.8 + 2.4 is 8, so that the same
    three runs score below 40 (light) in one order and 40 (moderate) in
    the other. *)
Theorem getWeeklyActivityLevel_order_matters :
  let run d := {| Double.calories := None;
                  Double.workout := None;
                  Double.running :=
                    Some {| Double.running_completed := true;
                            Double.distance := Double.num d |} |} in
  let week := [run 2.4; run 2.8; run 2.8]%float in
  let week' := [run 2.8; run 2.8; run 2.4]%float in
  Permutation week week'
  /\ Double.getWeeklyActivityLevel (Some week) = "light"%string
  /\ Double.getWeeklyActivityLevel (Some week') = "moderate"%string
  /\ Double.score week' = 40%float
  /\ (Double.score week <? 40)%float = true.
Proof.
  intros run week week'. split.
  - unfold week, week'.
    apply perm_trans with [run 2.8; run 2.4; run 2.8]%float.
    + apply perm_swap.
    + apply perm_skip. apply perm_swap.
  - repeat split; vm_compute; reflexivity.
Qed.

(** ** Signs in doubles *)

(** On a number [a] that is not NaN the test [a >= 0] fails exactly when
    [a < 0]. *)
Lemma double_leb_0_ltb (a : float) :
  is_nan a = false -> (0 <=? a)%float = negb (a <? 0)%float.
Proof.
  unfold is_nan.
  rewrite FloatAxioms.eqb_spec, FloatAxioms.leb_spec, FloatAxioms.ltb_spec.
  change (Prim2SF 0) with (S754_zero false).
  destruct (Prim2SF a) as [s|s| |s m e]; try destruct s; cbn; congruence.
Qed.

Lemma double_ltb_0_not_nan (a : float) :
  (a <? 0)%float = true -> is_nan a = false.
Proof.
  unfold is_nan. rewrite FloatAxioms.eqb_spec, FloatAxioms.ltb_spec.
  change (Prim2SF 0) with (S754_zero false).
  destruct (Prim2SF a) as [s|s| |s m e]; try destruct s;
    unfold SFltb, SFeqb, SFcompare;
    rewrite ?Z.compare_refl, ?Pos.compare_cont_refl, ?Pos.compare_refl; cbn;
    congruence.
Qed.

Lemma sf_round_aux_plus (m e : Z) (l : location) :
  match binary_round_aux prec emax false m e l with
  | S754_zero s | S754_infinity s | S754_finite s _ _ => negb s
  | S754_nan => true
  end = true.
Proof.
  unfold binary_round_aux.
  destruct (shr_fexp prec emax m e l) as [mrs' e'].
  destruct (shr_fexp prec emax _ e' loc_Exact) as [mrs'' e''].
  destruct (shr_m mrs''); [reflexivity| |reflexivity].
  destruct (Z.leb _ _); reflexivity.
Qed.

Lemma sf_round_plus (m : positive) (e : Z) :
  match binary_round prec emax false m e with
  | S754_zero s | S754_infinity s | S754_finite s _ _ => negb s
  | S754_nan => true
  end = true.
Proof.
  unfold binary_round. destruct (shl_align _ _ _) as [mz ez].
  apply sf_round_aux_plus.
Qed.

Lemma double_plus_mul (x y : float) :
  Double.plus x = true -> Double.plus y = true -> Double.plus (x * y) = true.
Proof.
  unfold Double.plus. rewrite FloatAxioms.mul_spec. unfold SF64mul, SFmul.
  destruct (Prim2SF x) as [[|]|[|]| |[|] mx ex];
    destruct (Prim2SF y) as [[|]|[|]| |[|] my ey];
    cbn [negb xorb]; try discriminate; try reflexivity.
  intros _ _. apply sf_round_aux_plus.
Qed.

Lemma double_plus_add (x y : float) :
  Double.plus x = true -> Double.plus y = true -> Double.plus (x + y) = true.
Proof.
  unfold Double.plus. rewrite FloatAxioms.add_spec. unfold SF64add, SFadd.
  destruct (Prim2SF x) as [[|]|[|]| |[|] mx ex];
    destruct (Prim2SF y) as [[|]|[|]| |[|] my ey];
    cbn [negb]; try discriminate; try reflexivity.
  intros _ _. cbv zeta. unfold cond_Zopp, binary_normalize.
  cbn [Z.add]. apply sf_round_plus.
Qed.

Lemma double_plus_div (x y : float) :
  Double.plus x = true -> Double.plus y = true -> Double.plus (x / y) = true.
Proof.
  unfold Double.plus. rewrite FloatAxioms.div_spec. unfold SF64div, SFdiv.
  destruct (Prim2SF x) as [[|]|[|]| |[|] mx ex];
    destruct (Prim2SF y) as [[|]|[|]| |[|] my ey];
    cbn [negb xorb]; try discriminate; try reflexivity.
  intros _ _. destruct (SFdiv_core_binary _ _ _ _ _ _) as [[mz ez] lz].
  apply sf_round_aux_plus.
Qed.

Lemma double_plus_ofnat (n : nat) : Double.plus (Double.ofnat n) = true.
Proof.
  unfold Double.ofnat, Double.of_Z.
  destruct (Z.of_nat n) as [|p|p] eqn:E; [reflexivity| |lia].
  unfold Double.plus. rewrite FloatAxioms.of_uint63_spec.
  pose proof (Uint63.to_Z_bounded (Uint63.of_Z (Z.pos p))) as B.
  unfold binary_normalize.
  destruct (Uint63Axioms.to_Z _) as [|q|q]; [reflexivity| |lia].
  apply sf_round_plus.
Qed.


Lemma double_truthy_plus (x : float) :
  Double.truthyF x = true -> (x <? 0)%float = false -> Double.plus x = true.
Proof.
  unfold Double.plus, Double.truthyF, is_nan.
  rewrite !FloatAxioms.eqb_spec, FloatAxioms.ltb_spec.
  change (Prim2SF 0) with (S754_zero false).
  destruct (Prim2SF x) as [[|]|[|]| |[|] m e]; cbn; congruence.
Qed.

Lemma double_plus_or_num (v : Double.jsval) :
  (Double.ToNumber v <? 0)%float = false ->
  Double.plus (Double.or_num v 0) = true.
Proof.
  unfold Double.or_num. intros H.
  destruct (Double.truthy v) eqn:T; [|reflexivity].
  destruct v as [| |f]; try discriminate.
  apply double_truthy_plus; assumption.
Qed.

Lemma double_plus_Math_round (x : float) :
  Double.plus x = true -> Double.plus (Double.Math_round x) = true.
Proof.
  intros H. unfold Double.Math_round.
  destruct (Prim2SF x) as [s|s| |s m e] eqn:E; try exact H.
  destruct (0 <=? e)%Z eqn:He; [exact H|]. apply Z.leb_gt in He.
  assert (Hs : s = false).
  { unfold Double.plus in H. rewrite E in H. destruct s; [discriminate|reflexivity]. }
  subst s. unfold Double.integral, Double.signed.
  destruct (_ =? 0)%Z eqn:Z0; [reflexivity|].
  assert (P : (0 <= (2 * Z.pos m + 2 ^ (- e)) / 2 ^ (1 - e))%Z).
  { apply Z.div_pos; [|apply Z.pow_pos_nonneg; lia].
    pose proof (Z.pow_nonneg 2 (- e)). lia. }
  apply Z.eqb_neq in Z0.
  destruct ((2 * Z.pos m + 2 ^ (- e)) / 2 ^ (1 - e))%Z as [|p|p] eqn:Ez;
    [congruence| |lia].
  unfold Double.of_Z. unfold Double.plus. rewrite FloatAxioms.of_uint63_spec.
  pose proof (Uint63.to_Z_bounded (Uint63.of_Z (Z.pos p))) as B.
  unfold binary_normalize.
  destruct (Uint63Axioms.to_Z _) as [|q|q]; [reflexivity| |lia].
  apply sf_round_plus.
Qed.

Lemma double_plus_sum (l : list float) (a : float) :
  Double.plus a = true -> Forall (fun x => Double.plus x = true) l ->
  Double.plus (fold_left PrimFloat.add l a) = true.
Proof.
  revert a. induction l as [|x l IH]; intros a Ha Hl; simpl.
  - exact Ha.
  - inversion Hl; subst. apply IH; [apply double_plus_add|]; assumption.
Qed.

Lemma double_plus_met (tag : string) : Double.plus (Double.met tag) = true.
Proof.
  unfold Double.met, Double.or_member, Double.prop.
  destruct (lookup tag Double.MET_VALUES) as [f|] eqn:L.
  - destruct (Double.truthyF f); [|reflexivity].
    unfold Double.MET_VALUES in L. simpl in L.
    repeat match type of L with
           | context [String.eqb ?a ?b] => destruct (String.eqb a b)
           end;
      try discriminate; injection L as <-; reflexivity.
  - destruct (in_dec string_dec tag inherited_keys); reflexivity.
Qed.

Lemma double_exerciseTotal_plus (w : float) (e : Double.DailyEntry) :
  Double.plus w = true -> Double.distance_not_negative e ->
  Double.plus (Double.exerciseTotal w e) = true.
Proof.
  intros Hw Hd. unfold Double.exerciseTotal. cbv zeta.
  assert (S : Double.plus (0 + Double.strengthCalories w e) = true).
  { apply double_plus_add; [reflexivity|].
    unfold Double.strengthCalories, Double.mean, Double.sum.
    apply double_plus_div; [|reflexivity].
    apply double_plus_mul; [|reflexivity].
    apply double_plus_mul; [|exact Hw].
    apply double_plus_div; [|apply double_plus_ofnat].
    apply double_plus_sum; [reflexivity|].
    apply Forall_forall. intros x Hx. apply in_map_iff in Hx.
    destruct Hx as [t [<- _]]. apply double_plus_met. }
  assert (R : forall t, Double.plus t = true ->
                        Double.plus (t + Double.runningCalories w e) = true).
  { intros t Ht. apply double_plus_add; [exact Ht|].
    unfold Double.runningCalories.
    apply double_plus_div; [|reflexivity].
    apply double_plus_mul.
    - apply double_plus_mul; [reflexivity | exact Hw].
    - apply double_plus_mul; [|reflexivity].
      apply double_plus_or_num. exact Hd. }
  destruct (Double.workoutCompleted e && _), (Double.runningCompleted e);
    try apply R; try exact S; reflexivity.
Qed.

(** ** Exercise calories in doubles *)

Lemma double_calculateExerciseCalories_total (w : float) (e : Double.DailyEntry) :
  Double.truthyF w = true ->
  Double.calculateExerciseCalories (Double.num w) e
  = Double.Math_round (Double.exerciseTotal w e).
Proof.
  intros Hw. unfold Double.calculateExerciseCalories.
  cbn [Double.truthy]. rewrite Hw. cbn [negb]. cbv zeta. f_equal.
  unfold Double.exerciseTotal, Double.strengthCalories, Double.runningCalories,
    Double.workoutCompleted, Double.runningCompleted, Double.runningDistance,
    Double.tags, Double.WORKOUT_DURATION, Double.mean, Double.sum, Double.met.
  cbn [Double.ToNumber].
  change (Double.get "running" Double.MET_VALUES) with 9.8%float.
  destruct e as [c [[wc [l|]]|] [[rc d]|]];
    cbn [Double.workout Double.running workout_completed exercises
         Double.running_completed Double.distance];
    try destruct wc; try destruct rc; try destruct l as [|t ts];
    cbn [Nat.ltb Nat.leb List.length Nat.eqb negb andb];
    try rewrite double_fold_left_sum; rewrite ?length_map; reflexivity.
Qed.

Lemma double_plus_calculateExerciseCalories (w : float) (e : Double.DailyEntry) :
  Double.truthyF w = true -> (w <? 0)%float = false ->
  Double.distance_not_negative e ->
  Double.plus (Double.calculateExerciseCalories (Double.num w) e) = true.
Proof.
  intros T Hw Hd. rewrite (double_calculateExerciseCalories_total w e T).
  apply double_plus_Math_round, double_exerciseTotal_plus; [|exact Hd].
  apply double_truthy_plus; assumption.
Qed.

Lemma double_plus_not_neg_zero (x : float) :
  Double.plus x = true -> Double.is_neg_zero x = false.
Proof.
  unfold Double.plus, Double.is_neg_zero.
  destruct (Prim2SF x) as [[|]|s| |s m e]; try reflexivity. discriminate.
Qed.



(** ** Time to goal in doubles *)

Lemma double_calculateTimeToGoal_null (now : Date) (cw gw awl : Double.jsval) :
  Double.weeksRemaining (Double.calculateTimeToGoal now cw gw awl) = None
  <-> (Double.truthy cw = false \/ Double.truthy gw = false
       \/ (0 <=? Double.ToNumber awl)%float = true).
Proof.
  unfold Double.calculateTimeToGoal.
  destruct (Double.truthy cw), (Double.truthy gw),
    (0 <=? Double.ToNumber awl)%float; cbn [negb orb];
    try (split; [intros _; tauto | reflexivity]).
  destruct (_ <=? 0)%float; cbn; split; try discriminate;
    intros [H|[H|H]]; discriminate.
Qed.

Lemma double_calculateTimeToGoal_null_fields
      (now : Date) (cw gw awl : Double.jsval) :
  let r := Double.calculateTimeToGoal now cw gw awl in
  Double.weeksRemaining r = None ->
  Double.estimatedDate r = None /\ Double.achieved r = None.
Proof.
  unfold Double.calculateTimeToGoal.
  destruct (_ || _); [intros _; split; reflexivity|].
  destruct (_ <=? 0)%float; discriminate.
Qed.

(** C8, refuted as stated: an [avgWeeklyLoss] that is NaN or undefined is not
    below 0, yet the guard [avgWeeklyLoss >= 0] does not hold of it either;
    the result is then not the null one: for (80, 70) [weeksRemaining] is
    NaN with [achieved = false], and for (68, 70) the goal is reported
    achieved. *)
Lemma calculateTimeToGoal_nan_rate_not_null :
  let now := {| day := 0; msOfDay := 0 |} in
  (nan <? 0)%float = false
  /\ (Double.ToNumber Double.undefined <? 0)%float = false
  /\ Double.calculateTimeToGoal now (Double.num 80) (Double.num 70)
                                (Double.num nan)
     = {| Double.weeksRemaining := Some nan;
          Double.estimatedDate := Some (Double.NowPlusDays now nan);
          Double.achieved := Some false |}
  /\ Double.calculateTimeToGoal now (Double.num 80) (Double.num 70)
                                Double.undefined
     = {| Double.weeksRemaining := Some nan;
          Double.estimatedDate := Some (Double.NowPlusDays now nan);
          Double.achieved := Some false |}
  /\ Double.calculateTimeToGoal now (Double.num 68) (Double.num 70)
                                (Double.num nan)
     = {| Double.weeksRemaining := Some 0%float;
          Double.estimatedDate := Some (Double.Now now);
          Double.achieved := Some true |}
  /\ Double.weeksRemaining
       (Double.calculateTimeToGoal now (Double.num 80) (Double.num 70)
                                   (Double.num nan)) <> None.
Proof.
  intros now. repeat split; try (vm_compute; reflexivity).
  vm_compute. discriminate.
Qed.

(** C8, amended: for an [avgWeeklyLoss] that is a number other than NaN,
    [calculateTimeToGoal] returns null [weeksRemaining] and null
    [estimatedDate] (and no [achieved]) unless [currentWeight] and
    [goalWeight] are non-falsy and [avgWeeklyLoss < 0]; for a null
    [avgWeeklyLoss] it returns the null result too.  When those hold and
    [currentWeight - goalWeight <= 0] it reports [achieved = true] with
    [weeksRemaining = 0] and the current date; otherwise it reports
    [achieved = false] with
    [weeksRemaining = ceil((currentWeight - goalWeight) / |avgWeeklyLoss|)],
    the subtraction and the division in doubles, and the current date
    moved by [7 x weeksRemaining] days.  (80, 70, -1) gives 10 weeks,
    (68, 70, -1) gives achieved with 0 weeks, and (70.2, 65, -0.1) gives
    53 weeks. *)
Theorem calculateTimeToGoal_double_spec :
  (forall now cw gw a,
      is_nan a = false ->
      let r := Double.calculateTimeToGoal now cw gw (Double.num a) in
      (Double.weeksRemaining r = None
       <-> ~ (Double.truthy cw = true /\ Double.truthy gw = true
              /\ (a <? 0)%float = true))
      /\ (Double.weeksRemaining r = None ->
          Double.estimatedDate r = None /\ Double.achieved r = None))
  /\ (forall now cw gw,
         Double.calculateTimeToGoal now cw gw Double.null
         = {| Double.weeksRemaining := None;
              Double.estimatedDate := None;
              Double.achieved := None |})
  /\ (forall now c g a,
         Double.truthyF c = true -> Double.truthyF g = true ->
         (a <? 0)%float = true ->
         Double.calculateTimeToGoal now (Double.num c) (Double.num g)
                                    (Double.num a)
         = if (c - g <=? 0)%float then
             {| Double.weeksRemaining := Some 0%float;
                Double.estimatedDate := Some (Double.Now now);
                Double.achieved := Some true |}
           else
             let weeks := Double.Math_ceil ((c - g) / abs a)%float in
             {| Double.weeksRemaining := Some weeks;
                Double.estimatedDate :=
                  Some (Double.NowPlusDays now (weeks * 7)%float);
                Double.achieved := Some false |})
  /\ (forall now,
         Double.calculateTimeToGoal now (Double.num 80) (Double.num 70)
                                    (Double.num (-1))
         = {| Double.weeksRemaining := Some 10%float;
              Double.estimatedDate := Some (Double.NowPlusDays now 70);
              Double.achieved := Some false |}
         /\ Double.calculateTimeToGoal now (Double.num 68) (Double.num 70)
                                       (Double.num (-1))
            = {| Double.weeksRemaining := Some 0%float;
                 Double.estimatedDate := Some (Double.Now now);
                 Double.achieved := Some true |}
         /\ Double.calculateTimeToGoal now (Double.num 70.2) (Double.num 65)
                                       (Double.num (-0.1))
            = {| Double.weeksRemaining := Some 53%float;
                 Double.estimatedDate := Some (Double.NowPlusDays now 371);
                 Double.achieved := Some false |}).
Proof.
  split; [|split; [|split]].
  - intros now cw gw a Ha r. split.
    + subst r. rewrite double_calculateTimeToGoal_null.
      cbn [Double.ToNumber]. rewrite (double_leb_0_ltb a Ha).
      destruct (Double.truthy cw), (Double.truthy gw), (a <? 0)%float;
        cbn [negb]; split;
        try (intros [H|[H|H]]; discriminate);
        try (intros H; exfalso; apply H; repeat split; reflexivity);
        try (intros _ [H1 [H2 H3]]; discriminate);
        try (intros _; tauto).
    + apply double_calculateTimeToGoal_null_fields.
  - intros now cw gw. unfold Double.calculateTimeToGoal.
    cbn [Double.ToNumber].
    replace (0 <=? 0)%float with true by (vm_compute; reflexivity).
    rewrite orb_true_r. reflexivity.
  - intros now c g a Hc Hg Ha. unfold Double.calculateTimeToGoal.
    cbn [Double.truthy Double.ToNumber].
    rewrite (double_leb_0_ltb a (double_ltb_0_not_nan a Ha)), Hc, Hg, Ha.
    cbn [negb orb]. destruct (c - g <=? 0)%float; reflexivity.
  - intros now. repeat split; vm_compute; reflexivity.
Qed.

Lemma calculateTimeToGoal_double_spec_witness :
  let now := {| day := 19000; msOfDay := 0 |} in
  Double.weeksRemaining
    (Double.calculateTimeToGoal now (Double.num 70.2) (Double.num 65)
                                (Double.num (-0.1)))
  = Some 53%float
  /\ Double.weeksRemaining
       (Double.calculateTimeToGoal now (Double.num 80) (Double.num 70)
                                   (Double.num 0.5))
     = None
  /\ Double.estimatedDate
       (Double.calculateTimeToGoal now (Double.num 80) Double.null
                                   (Double.num (-1)))
     = None.
Proof.
  intros now.
  pose proof calculateTimeToGoal_double_spec as [Hnull [_ [Hrun _]]].
  split; [|split].
  - rewrite (Hrun now 70.2 65 (-0.1) eq_refl eq_refl eq_refl)%float.
    vm_compute. reflexivity.
  - apply (proj1 (Hnull now (Double.num 80) (Double.num 70) 0.5%float eq_refl)).
    intros [_ [_ H]]. vm_compute in H. discriminate.
  - apply (proj2 (Hnull now (Double.num 80) Double.null (-1)%float eq_refl)).
    apply (proj1 (Hnull now (Double.num 80) Double.null (-1)%float eq_refl)).
    intros [_ [H _]]. discriminate.
Defined.

(** ** Time to goal: never a projection into the past *)






(** ** The weight forecast without a BMR, in doubles *)

(** Adding a number to [0] gives the number back, [-0] excepted
    ([0 + -0] is [0]). *)
Lemma double_add_0_l (y : float) :
  Double.is_neg_zero y = false -> (0 + y)%float = y.
Proof.
  unfold Double.is_neg_zero. intros H. apply Prim2SF_inj.
  rewrite FloatAxioms.add_spec. change (Prim2SF 0) with (S754_zero false).
  unfold SF64add, SFadd.
  destruct (Prim2SF y) as [s|s| |s m e]; try reflexivity.
  subst s. reflexivity.
Qed.

(** C10: with a non-empty list of entries and a nonzero current weight, a
    missing or falsy height or age does not lead to the zeroed output: BMR
    and TDEE are [null] and reported as 0, the TDEE term of the daily
    balance is 0, so that the balance is avgCalories - avgExerciseCalories
    (computed as avgCalories - (0 + avgExerciseCalories), which is the
    same number unless avgExerciseCalories is [-0], which it is not when
    neither the weight nor a running distance of the window is negative),
    reported rounded, and the result carries the activity level, the
    confidence and the number of days of the window. *)
Theorem predictWeight_double_without_bmr :
  forall (profile : Double.Profile) (dailyEntries : list Double.DailyEntry)
         (cw : float),
    dailyEntries <> [] ->
    Double.truthyF cw = true ->
    Double.truthy (Double.height profile) = false
    \/ Double.truthy (Double.age profile) = false ->
    let W := Double.window dailyEntries in
    let avgCalories :=
      Double.Math_round
        (Double.mean (map (fun e => Double.or_num (Double.caloriesTotal e) 0%float)
                          W)) in
    let avgExerciseCalories :=
      Double.mean
        (map (fun e => Double.calculateExerciseCalories (Double.num cw) e) W) in
    let r := Double.predictWeight (Some profile) (Some dailyEntries)
                                  (Double.num cw) in
    Double.Locals.bmr profile (Double.num cw) = Double.null
    /\ Double.Locals.tdee profile dailyEntries (Double.num cw) = Double.null
    /\ Double.bmr r = 0%float
    /\ Double.tdee r = 0%float
    /\ Double.Locals.dailyBalance profile dailyEntries (Double.num cw)
       = (avgCalories - (0 + avgExerciseCalories))%float
    /\ Double.dailyBalance r
       = Double.Math_round (avgCalories - (0 + avgExerciseCalories))%float
    /\ (Double.is_neg_zero avgExerciseCalories = false ->
        Double.Locals.dailyBalance profile dailyEntries (Double.num cw)
        = (avgCalories - avgExerciseCalories)%float
        /\ Double.dailyBalance r
           = Double.Math_round (avgCalories - avgExerciseCalories)%float)
    /\ ((cw <? 0)%float = false ->
        Forall Double.distance_not_negative W ->
        Double.is_neg_zero avgExerciseCalories = false)
    /\ (let dailyBalance := (avgCalories - (0 + avgExerciseCalories))%float in
        let raw := (cw + dailyBalance / 7700 * 7)%float in
        let d :=
          (cw + (raw - cw) * Double.Math_min (Double.ofnat (List.length W) / 7) 1
                * 0.9)%float in
        Double.predictedWeight r
        = Double.num (Double.Math_round (d * 10) / 10)%float)
    /\ Double.activityLevel r = Some (Double.getWeeklyActivityLevel (Some W))
    /\ Double.confidence r
       = Double.Math_round
           (Double.Math_min (Double.ofnat (List.length W) / 7) 1 * 100)%float
    /\ Double.daysOfData r = Some (List.length W).
Proof.
  intros profile dailyEntries cw Hes Tcw Hm.
  destruct dailyEntries as [|e es]; [congruence|]. clear Hes.
  intros W avgCalories avgExerciseCalories r.
  assert (T : Double.truthy (Double.num cw) = true) by exact Tcw.
  subst r. rewrite (double_predictWeight_regular profile e es (Double.num cw) T).
  cbv zeta.
  cbn [Double.dailyBalance Double.tdee Double.bmr Double.activityLevel
       Double.confidence Double.daysOfData Double.predictedWeight].
  assert (Eb : Double.Locals.bmr profile (Double.num cw) = Double.null).
  { unfold Double.Locals.bmr, Double.calculateBMR.
    destruct Hm as [Hm|Hm]; rewrite Hm; cbn [negb]; rewrite ?orb_true_r;
      reflexivity. }
  assert (Et : Double.Locals.tdee profile (e :: es) (Double.num cw)
               = Double.null).
  { unfold Double.Locals.tdee. rewrite Eb. reflexivity. }
  assert (Ed : Double.Locals.dailyBalance profile (e :: es) (Double.num cw)
               = (avgCalories - (0 + avgExerciseCalories))%float).
  { unfold Double.Locals.dailyBalance.
    rewrite double_averages_avgCalories, Et, double_avgExerciseCalories_mean.
    reflexivity. }
  assert (Ep : Double.round1
                 (Double.Locals.dampedPrediction profile (e :: es) (Double.num cw))
               = (Double.Math_round
                    ((cw + (cw + (avgCalories - (0 + avgExerciseCalories))
                                 / 7700 * 7 - cw)
                           * Double.Math_min (Double.ofnat (List.length W) / 7) 1
                           * 0.9) * 10) / 10)%float).
  { unfold Double.round1, Double.Locals.dampedPrediction,
      Double.Locals.predictedWeight, Double.Locals.dailyWeightChange,
      Double.Locals.confidence, Double.Locals.daysAhead,
      Double.CALORIES_PER_KG, Double.Locals.recentEntries.
    fold (Double.window (e :: es)). rewrite Ed. reflexivity. }
  rewrite Eb, Et, Ed, Ep. cbn [Double.ToNumber].
  replace (Double.Math_round 0) with 0%float by (vm_compute; reflexivity).
  do 6 (split; [reflexivity|]).
  split.
  { intros Hz. rewrite (double_add_0_l _ Hz). split; reflexivity. }
  split.
  { intros Hw Hd. apply double_plus_not_neg_zero.
    unfold avgExerciseCalories, Double.mean, Double.sum.
    apply double_plus_div; [|apply double_plus_ofnat].
    apply double_plus_sum; [reflexivity|].
    apply Forall_forall. intros x Hx. apply in_map_iff in Hx.
    destruct Hx as [d [<- Hin]]. rewrite Forall_forall in Hd.
    apply double_plus_calculateExerciseCalories; [exact Tcw | exact Hw|].
    apply Hd. exact Hin. }
  repeat split; reflexivity.
Qed.

Lemma predictWeight_double_without_bmr_witness :
  let profile := {| Double.height := Double.null;
                    Double.age := Double.num 30;
                    Double.gender := None |} in
  let day := {| Double.calories := Some {| Double.total := Double.num 1650 |};
                Double.workout := None;
                Double.running := None |} in
  let dailyEntries := [day; day; day; day; day; day; day] in
  let r := Double.predictWeight (Some profile) (Some dailyEntries)
                                (Double.num 65.3) in
  Double.bmr r = 0%float
  /\ Double.tdee r = 0%float
  /\ Double.dailyBalance r = 1650%float
  /\ Double.predictedWeight r = Double.num 66.6
  /\ Double.activityLevel r = Some "sedentary"%string
  /\ Double.confidence r = 100%float
  /\ Double.daysOfData r = Some 7%nat.
Proof.
  intros profile day dailyEntries r.
  destruct (predictWeight_double_without_bmr
              profile dailyEntries 65.3 ltac:(discriminate) eq_refl
              (or_introl eq_refl))
    as [_ [_ [Hb [Ht [_ [_ [Hd [Hz [Hp [Ha [Hc Hn]]]]]]]]]]].
  assert (Z : Forall Double.distance_not_negative (Double.window dailyEntries))
    by (repeat constructor).
  destruct (Hd (Hz eq_refl Z)) as [_ Hr].
  fold r in Hb, Ht, Hr, Hp, Ha, Hc, Hn.
  rewrite Hb, Ht, Hr, Hp, Ha, Hc, Hn.
  repeat split; vm_compute; reflexivity.
Defined.

(** ** The worked examples of the specification, in doubles *)

Example double_calculateTDEE_1500_moderate :
  Double.calculateTDEE (Double.num 1500) "moderate" = Double.num 2325.
Proof. vm_compute. reflexivity. Qed.

Example double_calculateBMR_70_165_30 :
  Double.calculateBMR (Double.num 70) (Double.num 165) (Double.num 30)
                      (Some "female"%string)
  = Double.num 1420.25.
Proof. vm_compute. reflexivity. Qed.

Example double_calculateExerciseCalories_chest :
  Double.calculateExerciseCalories
    (Double.num 70)
    {| Double.calories := None;
       Double.workout := Some {| workout_completed := true;
                                 exercises := Some ["chest"%string] |};
       Double.running := Some {| Double.running_completed := false;
                                 Double.distance := Double.undefined |} |}
  = 210%float.
Proof. vm_compute. reflexivity. Qed.

Example double_calculateExerciseCalories_inherited_tag :
  is_nan
    (Double.calculateExerciseCalories
       (Double.num 70)
       {| Double.calories := None;
          Double.workout := Some {| workout_completed := true;
                                    exercises := Some ["constructor"%string] |};
          Double.running := None |})
  = true.
Proof. vm_compute. reflexivity. Qed.
